(** * Document-intelligence workflow: HITL suspension, correlation and SSE bridge

    A shallow embedding of
    - [src/workflow_small.py]: the step functions of the document graph, the
      [HitlCoordinator] (prepare_request / handle_response), the process-wide
      [APPROVAL_CONTEXT] store and [save_result_to_blob];
    - [src/workflow_one.py]: [_parse_compliance_json] and
      [ComplianceAdapter.on_compliance];
    - [src/workflow_api.py]: [start_workflow], [submit_approval],
      [get_workflow_status], the [pending_approvals] and
      [workflow_sessions] tables, and the SSE [event_generator] with its
      polling wait;
    - [src/main.py]: [run_once], the console driver of the workflow.

    The graph runner itself ([agent_framework]'s Workflow and
    RequestInfoExecutor) is a third-party library; it is modelled from the
    run-engine section of the spec (supersteps, typed edge delivery,
    request/response correlation by request id).  Opaque collaborators
    (the extractor and compliance agents, [json.loads], [json.dumps],
    [uuid4], Azure clients, the helpers of [tools.utils]) are section
    variables, so every theorem holds for all of their behaviours. *)

From Stdlib Require Import String Ascii ZArith Bool List.
From stdpp Require Import base gmap strings list.
Import ListNotations.

Local Set Warnings "-register-all".

Local Infix "+++" := String.append (at level 60, right associativity).

(* ------------------------------------------------------------------ *)
(** ** Python values *)

(** JSON values as produced by [json.loads] (a Python dict keeps its keys
    in insertion order: an association list). *)
Inductive JsonV : Type :=
| JNull
| JBool (b : bool)
| JNum (z : Z)
| JStr (s : string)
| JArr (l : list JsonV)
| JObj (l : list (string * JsonV)).

(** Python exceptions that matter here. *)
Inductive PyExc : Type :=
| AttributeError (msg : string)
| TypeError (msg : string)
| KeyError (key : string)
| StepFailure (msg : string)
| IterationLimitExceeded
| CorrelationError (request_id : string)
| NameError (name : string).

Definition exc_message (e : PyExc) : string :=
  match e with
  | AttributeError m | TypeError m | StepFailure m => m
  | KeyError k => k
  | IterationLimitExceeded => "Runner did not converge"
  | CorrelationError r => r
  | NameError n => "name '" +++ n +++ "' is not defined"
  end.

(** Python truthiness. *)
Definition truthy (v : JsonV) : bool :=
  match v with
  | JNull => false
  | JBool b => b
  | JNum z => negb (Z.eqb z 0)
  | JStr s => negb (String.eqb s "")
  | JArr l => negb (Nat.eqb (List.length l) 0)
  | JObj l => negb (Nat.eqb (List.length l) 0)
  end.

Definition str_truthy (s : string) : bool := negb (String.eqb s "").

(** [d.get(k, default)] on a dict: the binding of [k] (json.loads keeps the
    last of duplicate keys), else [default]. *)
Definition obj_get (k : string) (default : JsonV) (l : list (string * JsonV)) : JsonV :=
  match List.find (fun kv => String.eqb (fst kv) k) (List.rev l) with
  | Some (_, v) => v
  | None => default
  end.

(** [v.get(k, default)]: only dicts have [.get]. *)
Definition py_get (v : JsonV) (k : string) (default : JsonV) : PyExc + JsonV :=
  match v with
  | JObj l => inr (obj_get k default l)
  | _ => inl (AttributeError "object has no attribute 'get'")
  end.

(** Strings are UTF-8 byte strings; Python's [str] counts code points.
    A continuation byte (10xxxxxx) does not start a code point. *)
Definition is_cont (c : ascii) : bool :=
  let n := nat_of_ascii c in (128 <=? n) && (n <? 192).

(** [len(s)] on a str: the number of code points. *)
Fixpoint cp_len (s : string) : nat :=
  match s with
  | EmptyString => 0
  | String c s' => if is_cont c then cp_len s' else S (cp_len s')
  end.

(** [s[:n]]: the first [n] code points. *)
Fixpoint cp_take (n : nat) (s : string) : string :=
  match s with
  | EmptyString => EmptyString
  | String c s' =>
      if is_cont c then String c (cp_take n s')
      else match n with
           | 0 => EmptyString
           | S n' => String c (cp_take n' s')
           end
  end.

Fixpoint drop_conts (s : string) : string :=
  match s with
  | String c s' => if is_cont c then drop_conts s' else s
  | EmptyString => EmptyString
  end.

(** [s[n:]]: without the first [n] code points. *)
Fixpoint cp_drop (n : nat) (s : string) : string :=
  match n with
  | 0 => s
  | S n' => match s with
            | EmptyString => EmptyString
            | String _ s' => cp_drop n' (drop_conts s')
            end
  end.

(** [len(d)] of a dict: its distinct keys (json.loads keeps one binding per
    key). *)
Definition dict_len (l : list (string * JsonV)) : nat :=
  List.length (List.nodup String.string_dec (List.map fst l)).

(** [len(v)]: defined on str, list and dict. *)
Definition py_len (v : JsonV) : PyExc + nat :=
  match v with
  | JStr s => inr (cp_len s)
  | JArr l => inr (List.length l)
  | JObj l => inr (dict_len l)
  | _ => inl (TypeError "object has no len()")
  end.

(** [s[-n:]]. *)
Definition last_n (n : nat) (s : string) : string :=
  let k := cp_len s in
  if Nat.leb k n then s else cp_drop (k - n) s.

(** [d[k] = v] on a dict kept in insertion order. *)
Fixpoint dict_set {V : Type} (k : string) (v : V) (l : list (string * V)) : list (string * V) :=
  match l with
  | [] => [(k, v)]
  | (k', v') :: t => if String.eqb k k' then (k, v) :: t else (k', v') :: dict_set k v t
  end.

(** The ellipsis character appended to long previews. *)
Definition ellipsis : string := "…".

(** Decimal rendering of a natural number (for [str(int)]). *)
Fixpoint dec_go (fuel n : nat) (acc : string) : string :=
  match fuel with
  | 0 => acc
  | S f =>
      let d := String (ascii_of_nat (48 + n mod 10)) EmptyString in
      if Nat.ltb n 10 then d +++ acc else dec_go f (n / 10) (d +++ acc)
  end.

Definition py_str_Z (z : Z) : string :=
  let s := dec_go (S (Z.to_nat (Z.abs z))) (Z.to_nat (Z.abs z)) "" in
  if Z.ltb z 0 then "-" +++ s else s.

Definition nl : string := String (ascii_of_nat 10) EmptyString.

(** [repr] of a string as Python prints it inside containers. *)
Definition py_repr_str (s : string) : string := "'" +++ s +++ "'".

(** [str(v)] of a JSON value (nested values use their [repr]). *)
Fixpoint py_repr (v : JsonV) : string :=
  match v with
  | JNull => "None"
  | JBool true => "True"
  | JBool false => "False"
  | JNum z => py_str_Z z
  | JStr s => py_repr_str s
  | JArr l =>
      "[" +++ String.concat ", " (List.map py_repr l) +++ "]"
  | JObj l =>
      "{" +++ String.concat ", "
        (List.map (fun kv => py_repr_str (fst kv) +++ ": " +++ py_repr (snd kv)) l)
      +++ "}"
  end.

Definition py_str (v : JsonV) : string :=
  match v with
  | JStr s => s
  | _ => py_repr v
  end.

(** Error-propagating sequencing for code whose exceptions escape. *)
Definition ebind {A B : Type} (m : PyExc + A) (k : A -> PyExc + B) : PyExc + B :=
  match m with
  | inl e => inl e
  | inr a => k a
  end.

Notation "'let?' x ':=' m 'in' k" := (ebind m (fun x => k))
  (at level 200, x name, m at level 100, k at level 200).

(* ------------------------------------------------------------------ *)
(** ** [src/workflow_small.py]: the document graph and the HITL coordinator *)

Module WorkflowSmall.

(** Executor ids of [workflow_small]. *)
Module Exec.
Inductive ExecId : Type :=
| doc_prompt
| extractor_node
| extractor_result_node
| compliance_node
| compliance_result_node
| hitl_coordinator
| human_review_exec
| final_result_placeholder.
End Exec.
Import Exec.

#[global] Instance ExecId_eq_dec : EqDecision ExecId.
Proof. solve_decision. Defined.

Record DocInput := {
  document_uri : string;
  document_title : option string;
  page_count : option Z }.

Record ApprovalRequest := {
  approval_id : string;
  title : string;
  message : string;
  source_uri : JsonV;
  preview : JsonV }.

Record ApprovalResponse := {
  resp_approval_id : string;
  approved : bool;
  comment : option string }.

(** An entry of [APPROVAL_CONTEXT]. *)
Record ApprovalInfo := {
  payload : string;
  info_source_uri : JsonV;
  info_preview : JsonV }.

(** Messages carried along edges. [MResp] is the framework's
    [RequestResponse] (only [data] is read by the coordinator). *)
Inductive Msg : Type :=
| MDoc (d : DocInput)
| MStr (s : string)
| MReq (r : ApprovalRequest)
| MResp (original_request : ApprovalRequest) (data : ApprovalResponse).

(** Events on the workflow's stream: the [WorkflowEvent] dicts added by the
    steps, the [RequestInfoEvent] of the gate and [WorkflowOutputEvent]. *)
Inductive WEvent : Type :=
| WProgress (phase status : string)
| WHitl (status approval_id : string)
| WRequestInfo (request_id : string) (r : ApprovalRequest)
| WOutput (m : Msg).

(** State of one run: the process-wide [APPROVAL_CONTEXT], the requests the
    [RequestInfoExecutor] holds, and the position in the [uuid4] stream. *)
Record RunState := {
  approval_context : gmap string ApprovalInfo;
  pending_requests : gmap string ApprovalRequest;
  uuid_ctr : nat }.

Definition set_context (c : gmap string ApprovalInfo) (st : RunState) : RunState :=
  {| approval_context := c; pending_requests := pending_requests st; uuid_ctr := uuid_ctr st |}.

Definition set_pending (p : gmap string ApprovalRequest) (st : RunState) : RunState :=
  {| approval_context := approval_context st; pending_requests := p; uuid_ctr := uuid_ctr st |}.

Definition bump_uuid (st : RunState) : RunState :=
  {| approval_context := approval_context st; pending_requests := pending_requests st;
     uuid_ctr := S (uuid_ctr st) |}.

(** [ctx.send_message(m, target_id=t)]. *)
Definition Send : Type := (option ExecId * Msg)%type.

(** What one handler invocation produces: the events it added (also when it
    raises afterwards) and either the exception or the new state and sends. *)
Definition HOut : Type := (list WEvent * (PyExc + (RunState * list Send)))%type.

(** [response.comment or "Rejected"]. *)
Definition comment_or_rejected (c : option string) : string :=
  match c with
  | Some s => if str_truthy s then s else "Rejected"
  | None => "Rejected"
  end.

(** The dict passed to [json.dumps] on the rejection branch. *)
Definition rejection_json (c : option string) : JsonV :=
  JObj [("overall_status", JStr "rejected_by_human"); ("remarks", JStr (comment_or_rejected c))].

(** The f-string of [build_prompt]. *)
Definition build_prompt_text (doc : DocInput) : string :=
  let t := match document_title doc with
           | Some s => if str_truthy s then s else "N/A"
           | None => "N/A" end in
  let pc := match page_count doc with Some z => py_str_Z z | None => "None" end in
  nl +++ "        Document Details:" +++ nl
     +++ "        - Document URI: " +++ document_uri doc +++ nl
     +++ "        - Document Title: " +++ t +++ nl
     +++ "        - Page Count: " +++ pc +++ nl +++ "        ".

(** Values of [uri] and [preview] on the [except] path of prepare_request. *)
Definition except_path (prev : string) : JsonV * JsonV :=
  (JStr prev, JStr ("Testing HITL for document: " +++ last_n 60 prev)).

(** The edges of [workflow_small], in the order they are added. *)
Definition edges : list (ExecId * ExecId) :=
  [(doc_prompt, extractor_node);
   (extractor_node, extractor_result_node);
   (extractor_result_node, compliance_node);
   (compliance_node, compliance_result_node);
   (compliance_result_node, hitl_coordinator);
   (hitl_coordinator, human_review_exec);
   (human_review_exec, hitl_coordinator);
   (hitl_coordinator, final_result_placeholder)].

(** Which message types each executor has a handler for. *)
Definition accepts (e : ExecId) (m : Msg) : bool :=
  match e, m with
  | doc_prompt, MDoc _ => true
  | (extractor_node | extractor_result_node | compliance_node | compliance_result_node), MStr _ => true
  | hitl_coordinator, (MStr _ | MResp _ _) => true
  | human_review_exec, MReq _ => true
  | final_result_placeholder, _ => true
  | _, _ => false
  end.

(** Modelled from the spec (agent_framework's edge runner): a message sent
    by [src] goes along every outgoing edge whose destination is the target
    (if one is given) and has a handler for the message's type. *)
Definition route (src : ExecId) (target : option ExecId) (m : Msg) : list (ExecId * Msg) :=
  List.flat_map
    (fun '(s, d) =>
       if bool_decide (s = src)
          && match target with Some t => bool_decide (t = d) | None => true end
          && accepts d m
       then [(d, m)] else [])
    edges.

Definition max_iterations : nat := 80.

Definition PassResult : Type := (list WEvent * option PyExc * RunState)%type.

Section Collaborators.

(** [uuid.uuid4()] as a stream of ids. *)
Variable uuid4 : nat -> string.
(** [run_extractor_20_agent], [run_compliance_20_agent]; [None] = raises. *)
Variable run_extractor_20_agent : string -> option string.
Variable run_compliance_20_agent : string -> option string.
(** [json.loads] ([None] = JSONDecodeError) and [json.dumps]. *)
Variable json_loads : string -> option JsonV.
Variable json_dumps : JsonV -> string.

(** The [try] block of [prepare_request]: computes [uri] and [preview];
    JSONDecodeError and TypeError fall back to [except_path], an
    AttributeError (a [.get] on a non-dict) escapes.  [summary_text[:240]]
    on a list is a list and [+ "…"] raises TypeError; on a dict (CPython
    3.12 and later, where slice objects are hashable) it is a lookup of the
    key [slice(None, 240, None)] and raises KeyError, which escapes. *)
Definition prepare_parse (prev : string) : PyExc + (JsonV * JsonV) :=
  match json_loads prev with
  | None => inr (except_path prev)
  | Some data =>
      let? dd := py_get data "document_details" (JObj []) in
      let? u1 := py_get dd "source_uri" JNull in
      let? uri := (if truthy u1 then inr u1 else
                     let? u2 := py_get data "source_doc_uri" JNull in
                     inr (if truthy u2 then u2 else JStr "n/a")) in
      let? ds := py_get data "document_summary" (JObj []) in
      let? t := py_get ds "text" JNull in
      let summary_text := if truthy t then t else JStr "" in
      match py_len summary_text with
      | inl _ => inr (except_path prev)
      | inr n =>
          if Nat.ltb 240 n then
            match summary_text with
            | JStr s => inr (uri, JStr (cp_take 240 s +++ ellipsis))
            | JObj _ => inl (KeyError "slice(None, 240, None)")
            | _ => inr (except_path prev)
            end
          else inr (uri, if truthy summary_text then summary_text else JStr "No preview")
      end
  end.

(** [HitlCoordinator.prepare_request]. *)
Definition prepare_request (st : RunState) (prev : string) : HOut :=
  let rid := uuid4 (uuid_ctr st) in
  let st1 := bump_uuid st in
  match prepare_parse prev with
  | inl e => ([], inl e)
  | inr (uri, pv) =>
      ([], inr (set_context (<[rid := {| payload := prev; info_source_uri := uri;
                                         info_preview := pv |}]> (approval_context st1)) st1,
                [(Some human_review_exec,
                  MReq {| approval_id := rid; title := "Manual approval required";
                          message := "Please review the extracted result.";
                          source_uri := uri; preview := pv |})]))
  end.

(** [HitlCoordinator.handle_response]: [APPROVAL_CONTEXT.pop(id, {})],
    then forward the payload if approved and the payload is truthy, else
    the rejection JSON. *)
Definition handle_response (st : RunState) (response : ApprovalResponse) : HOut :=
  let aid := resp_approval_id response in
  let info := approval_context st !! aid in
  let st1 := set_context (delete aid (approval_context st)) st in
  let pl := option_map payload info in
  let ev := WHitl (if approved response then "approved" else "rejected") aid in
  let m := match pl with
           | Some p => if approved response && str_truthy p then MStr p
                       else MStr (json_dumps (rejection_json (comment response)))
           | None => MStr (json_dumps (rejection_json (comment response)))
           end in
  ([ev], inr (st1, [(None, m)])).

Definition build_prompt (st : RunState) (doc : DocInput) : HOut :=
  ([], inr (st, [(None, MStr (build_prompt_text doc))])).

Definition extractor_node_fn (st : RunState) (msg : string) : HOut :=
  match run_extractor_20_agent msg with
  | None => ([], inl (StepFailure "extractor"))
  | Some result => ([WProgress "extraction" "running"], inr (st, [(None, MStr result)]))
  end.

Definition extractor_result (st : RunState) (out : string) : HOut :=
  ([WProgress "extraction" "completed"], inr (st, [(None, MStr out)])).

Definition compliance_node_fn (st : RunState) (prompt : string) : HOut :=
  match run_compliance_20_agent prompt with
  | None => ([WProgress "compliance" "running"], inl (StepFailure "compliance"))
  | Some result => ([WProgress "compliance" "running"], inr (st, [(None, MStr result)]))
  end.

Definition compliance_result (st : RunState) (out : string) : HOut :=
  ([WProgress "compliance" "completed"], inr (st, [(None, MStr out)])).

Definition final_result_placeholder_fn (st : RunState) (prev : Msg) : HOut :=
  ([WOutput prev], inr (st, [])).

(** Modelled from the spec (agent_framework's RequestInfoExecutor): a
    request message is recorded under a fresh request id and surfaced as a
    [RequestInfoEvent]. *)
Definition request_info (st : RunState) (r : ApprovalRequest) : HOut :=
  let rid := uuid4 (uuid_ctr st) in
  let st1 := bump_uuid st in
  ([WRequestInfo rid r], inr (set_pending (<[rid := r]> (pending_requests st1)) st1, [])).

(** Dispatch of a delivered message to the executor's handler. *)
Definition invoke (e : ExecId) (m : Msg) (st : RunState) : HOut :=
  match e, m with
  | doc_prompt, MDoc d => build_prompt st d
  | extractor_node, MStr s => extractor_node_fn st s
  | extractor_result_node, MStr s => extractor_result st s
  | compliance_node, MStr s => compliance_node_fn st s
  | compliance_result_node, MStr s => compliance_result st s
  | hitl_coordinator, MStr s => prepare_request st s
  | hitl_coordinator, MResp _ resp => handle_response st resp
  | human_review_exec, MReq r => request_info st r
  | final_result_placeholder, m => final_result_placeholder_fn st m
  | _, _ => ([], inr (st, []))
  end.

(** Modelled from the spec: one superstep runs every delivered message; the
    messages they send are delivered in the next superstep. *)
Fixpoint superstep (st : RunState) (ds acc : list (ExecId * Msg))
  : list WEvent * (PyExc + (RunState * list (ExecId * Msg))) :=
  match ds with
  | [] => ([], inr (st, acc))
  | (e, m) :: ds' =>
      let '(evs, r) := invoke e m st in
      match r with
      | inl err => (evs, inl err)
      | inr (st', sends) =>
          let nexts := List.flat_map (fun '(t, m') => route e t m') sends in
          let '(evs', r') := superstep st' ds' (acc ++ nexts) in
          (evs ++ evs', r')
      end
  end.

(** Supersteps until no message is pending, bounded by [max_iterations]. *)
Fixpoint run_loop (fuel : nat) (st : RunState) (ds : list (ExecId * Msg)) : PassResult :=
  match ds with
  | [] => ([], None, st)
  | _ :: _ =>
      match fuel with
      | 0 => ([], Some IterationLimitExceeded, st)
      | S f =>
          let '(evs, r) := superstep st ds [] in
          match r with
          | inl err => (evs, Some err, st)
          | inr (st', ds') =>
              let '(evs', err', st'') := run_loop f st' ds' in
              (evs ++ evs', err', st'')
          end
      end
  end.

(** [wf.run_stream(doc_input)]. *)
Definition run_stream (doc : DocInput) (st : RunState) : PassResult :=
  run_loop max_iterations st [(doc_prompt, MDoc doc)].

(** Modelled from the spec: [wf.send_responses_streaming(responses)]; every
    answer must name an outstanding request (else CorrelationError and the
    run is left as it was); each answer is delivered from the gate as a
    [RequestResponse]. *)
Fixpoint collect_responses (resps : list (string * ApprovalResponse)) (st : RunState)
  : PyExc + (RunState * list (ExecId * Msg)) :=
  match resps with
  | [] => inr (st, [])
  | (rid, resp) :: rest =>
      match pending_requests st !! rid with
      | None => inl (CorrelationError rid)
      | Some r =>
          let? p := collect_responses rest (set_pending (delete rid (pending_requests st)) st) in
          let '(st', ds) := p in
          inr (st', route human_review_exec None (MResp r resp) ++ ds)
      end
  end.

Definition send_responses_streaming (resps : list (string * ApprovalResponse)) (st : RunState)
  : PassResult :=
  match collect_responses resps st with
  | inl e => ([], Some e, st)
  | inr (st', ds) => run_loop max_iterations st' ds
  end.

End Collaborators.

End WorkflowSmall.

(* ------------------------------------------------------------------ *)
(** ** [src/workflow_api.py]: sessions, approvals and the SSE bridge *)

Module Bridge.
Import WorkflowSmall.

(** An entry of [workflow_sessions] ([start_workflow] stores the status and
    the document uri; [submit_approval] adds the [pending_responses] slot). *)
Record Session := {
  status : string;
  sess_document_uri : string;
  pending_responses : option (gmap string ApprovalResponse) }.

(** The [approval_data] dict sent with [approval_required] (the timestamp is
    left out). *)
Record ApprovalData := {
  ad_request_id : string;
  ad_approval_id : string;
  ad_title : string;
  ad_message : string;
  ad_source_uri : JsonV;
  ad_preview : JsonV }.

(** An entry of [pending_approvals]. *)
Record PendingApproval := {
  pa_session_id : string;
  approval_data : ApprovalData }.

(** The two module-level tables. *)
Record BridgeState := {
  workflow_sessions : gmap string Session;
  pending_approvals : gmap string PendingApproval }.

(** The body of [POST /api/workflow/approval]. *)
Record ApprovalDecision := {
  request_id : string;
  d_approval_id : string;
  d_approved : bool;
  d_comment : option string }.

(** The JSON returned on success. *)
Record Ack := {
  ack_status : string;
  ack_message : string;
  ack_approval_id : string }.

(** [HTTPException(status_code, detail)]. *)
Record HttpError := {
  status_code : Z;
  detail : string }.

(** [submit_approval]. *)
Definition submit_approval (decision : ApprovalDecision) (bs : BridgeState)
  : HttpError + (Ack * BridgeState) :=
  match pending_approvals bs !! request_id decision with
  | None => inl {| status_code := 404; detail := "Approval request not found" |}
  | Some approval_info =>
      let session_id := pa_session_id approval_info in
      match workflow_sessions bs !! session_id with
      | None => inl {| status_code := 404; detail := "Workflow session not found" |}
      | Some sess =>
          let resp := {| resp_approval_id := d_approval_id decision;
                         approved := d_approved decision;
                         comment := d_comment decision |} in
          let slot := match pending_responses sess with Some m => m | None => ∅ end in
          let sess' := {| status := status sess; sess_document_uri := sess_document_uri sess;
                          pending_responses := Some (<[request_id decision := resp]> slot) |} in
          inr ({| ack_status := "success";
                  ack_message := "Approval " +++ (if d_approved decision then "granted" else "rejected");
                  ack_approval_id := d_approval_id decision |},
               {| workflow_sessions := <[session_id := sess']> (workflow_sessions bs);
                  pending_approvals := delete (request_id decision) (pending_approvals bs) |})
      end
  end.

(** SSE records yielded by [event_generator] (timestamps left out). *)
Inductive Rec : Type :=
| RConnected (session_id : string)
| RWorkflowStarted (session_id document_uri : string)
| RProgress (phase status : string)
| RApprovalRequired (data : ApprovalData)
| RHitlStatus (status approval_id : string)
| RWaitingForApproval (count : nat)
| RWorkflowCompleted (session_id : string) (result : Msg)
| RError (message : string).

(** [workflow_completed] and [error] end a session's stream. *)
Definition is_terminal (r : Rec) : bool :=
  match r with
  | RWorkflowCompleted _ _ | RError _ => true
  | _ => false
  end.

(** The result of the [async for event in stream] loop over one pass. *)
Record Translated := {
  tr_records : list Rec;
  tr_returned : bool;
  tr_requests : list string;
  tr_state : BridgeState }.

(** The body of [async for event in stream]: a [WorkflowOutputEvent] yields
    [workflow_completed] and returns; a [RequestInfoEvent] is collected,
    stored in [pending_approvals] and yields [approval_required]; progress
    and hitl dicts are forwarded. *)
Fixpoint translate (session_id : string) (evs : list WEvent) (bs : BridgeState) : Translated :=
  match evs with
  | [] => {| tr_records := []; tr_returned := false; tr_requests := []; tr_state := bs |}
  | WOutput m :: _ =>
      {| tr_records := [RWorkflowCompleted session_id m]; tr_returned := true;
         tr_requests := []; tr_state := bs |}
  | WRequestInfo rid req :: evs' =>
      let ad := {| ad_request_id := rid; ad_approval_id := approval_id req;
                   ad_title := title req; ad_message := message req;
                   ad_source_uri := source_uri req; ad_preview := preview req |} in
      let bs1 := {| workflow_sessions := workflow_sessions bs;
                    pending_approvals := <[rid := {| pa_session_id := session_id;
                                                     approval_data := ad |}]> (pending_approvals bs) |} in
      let t := translate session_id evs' bs1 in
      {| tr_records := RApprovalRequired ad :: tr_records t; tr_returned := tr_returned t;
         tr_requests := rid :: tr_requests t; tr_state := tr_state t |}
  | WProgress p s :: evs' =>
      let t := translate session_id evs' bs in
      {| tr_records := RProgress p s :: tr_records t; tr_returned := tr_returned t;
         tr_requests := tr_requests t; tr_state := tr_state t |}
  | WHitl s a :: evs' =>
      let t := translate session_id evs' bs in
      {| tr_records := RHitlStatus s a :: tr_records t; tr_returned := tr_returned t;
         tr_requests := tr_requests t; tr_state := tr_state t |}
  end.

Definition max_wait : nat := 300.

(** Answers posted concurrently: those handled during one sleep. *)
Definition apply_submits (ds : list ApprovalDecision) (bs : BridgeState) : BridgeState :=
  List.fold_left
    (fun b d => match submit_approval d b with inl _ => b | inr (_, b') => b' end) ds bs.

(** Iteration budget for the [while True] loop of [event_generator]; a
    further iteration needs [all_responses_ready], which never happens
    (see [local_buffer_never_filled]). *)
Definition loop_fuel : nat := 8.

Section Generator.

(** [wf.run_stream(doc_input)] and [wf.send_responses_streaming(...)]. *)
Variable engine_start : DocInput -> RunState -> PassResult.
Variable engine_resume : list (string * ApprovalResponse) -> RunState -> PassResult.
(** The submissions handled while the generator sleeps for the k-th time. *)
Variable schedule : nat -> list ApprovalDecision.

(** The polling loop: [while waited < max_wait] checks the generator's own
    [pending_responses] dict, sleeps (other requests run) and counts.  The
    result is the last value of [all_responses_ready]; [None] when the loop
    body never ran (the name is then unbound). *)
Fixpoint wait_loop (n waited : nat) (reqs : list string)
  (local : gmap string ApprovalResponse) (last : option bool) (bs : BridgeState)
  : option bool * BridgeState :=
  match n with
  | 0 => (last, bs)
  | S n' =>
      if forallb (fun r => bool_decide (is_Some (local !! r))) reqs then (Some true, bs)
      else wait_loop n' (S waited) reqs local (Some false) (apply_submits (schedule waited) bs)
  end.

(** The [while True] loop of [event_generator]. *)
Fixpoint gen_loop (fuel : nat) (session_id : string) (doc : DocInput)
  (local : gmap string ApprovalResponse) (rs : RunState) (bs : BridgeState)
  : list Rec * BridgeState :=
  match fuel with
  | 0 => ([], bs)
  | S f =>
      let '(pr, local') :=
        if bool_decide (local = ∅) then (engine_start doc rs, local)
        else (engine_resume (map_to_list local) rs, ∅) in
      let '(evs, err, rs') := pr in
      let t := translate session_id evs bs in
      if tr_returned t then (tr_records t, tr_state t)
      else match err with
      | Some e => (tr_records t ++ [RError (exc_message e)], tr_state t)
      | None =>
          match tr_requests t with
          | [] => (tr_records t, tr_state t)
          | _ :: _ =>
              let recs1 := tr_records t ++ [RWaitingForApproval (length (tr_requests t))] in
              let '(ready, bs2) := wait_loop max_wait 0 (tr_requests t) local' None (tr_state t) in
              match ready with
              | None => (recs1 ++ [RError (exc_message (NameError "all_responses_ready"))], bs2)
              | Some false => (recs1 ++ [RError "Approval timeout - no response received"], bs2)
              | Some true =>
                  let '(r2, bs3) := gen_loop f session_id doc local' rs' bs2 in
                  (recs1 ++ r2, bs3)
              end
          end
      end
  end.

(** [event_generator] for the session [session_id] (already checked to be in
    [workflow_sessions]); [build_ok] says whether [workflow_small(...)]
    returned (it can raise, e.g. writing the diagram file).  The session
    dict never holds [document_title] or [page_count], so both are [None]. *)
Definition event_generator (build_ok : bool) (session_id : string) (sess : Session)
  (rs0 : RunState) (bs : BridgeState) : list Rec * BridgeState :=
  if negb build_ok then ([RConnected session_id; RError "workflow construction failed"], bs)
  else
    let doc := {| document_uri := sess_document_uri sess; document_title := None;
                  page_count := None |} in
    let '(recs, bs') := gen_loop loop_fuel session_id doc ∅ rs0 bs in
    (RConnected session_id :: RWorkflowStarted session_id (sess_document_uri sess) :: recs, bs').

End Generator.

(** The request id [r] is in [pending_approvals], owned by session [sid]. *)
Definition owned_by (sid r : string) (bs : BridgeState) : Prop :=
  exists pa, pending_approvals bs !! r = Some pa /\ pa_session_id pa = sid.

(** The answer to [r] sits in the [pending_responses] slot of session [sid]. *)
Definition answered_in_slot (sid r : string) (bs : BridgeState) : Prop :=
  exists sess slot, workflow_sessions bs !! sid = Some sess /\
    pending_responses sess = Some slot /\ is_Some (slot !! r).

End Bridge.

(* ------------------------------------------------------------------ *)
(** ** [src/workflow_small.py]: the blob result sink [save_result_to_blob] *)

Module BlobSink.

(** The Python objects the date expression touches: the [datetime] module,
    the class [datetime.datetime] and the attributes of that class. *)
Inductive PyObj : Type :=
| ModuleDatetime
| ClassDatetime
| ClassAttr (name : string).

(** Attributes of the class [datetime.datetime] (Python 3 documentation). *)
Definition datetime_class_attrs : list string :=
  ["astimezone"; "combine"; "ctime"; "date"; "day"; "dst"; "fold"; "fromisocalendar";
   "fromisoformat"; "fromordinal"; "fromtimestamp"; "hour"; "isocalendar"; "isoformat";
   "isoweekday"; "max"; "microsecond"; "min"; "minute"; "month"; "now"; "replace";
   "resolution"; "second"; "strftime"; "strptime"; "time"; "timestamp"; "timetuple";
   "timetz"; "today"; "toordinal"; "tzinfo"; "tzname"; "utcfromtimestamp"; "utcnow";
   "utcoffset"; "utctimetuple"; "weekday"; "year"].

(** Attribute lookup on these objects. *)
Definition py_getattr (o : PyObj) (name : string) : PyExc + PyObj :=
  match o with
  | ModuleDatetime =>
      if String.eqb name "datetime" then inr ClassDatetime
      else inl (AttributeError ("module 'datetime' has no attribute '" +++ name +++ "'"))
  | ClassDatetime =>
      if existsb (String.eqb name) datetime_class_attrs then inr (ClassAttr name)
      else inl (AttributeError ("type object 'datetime.datetime' has no attribute '" +++ name +++ "'"))
  | ClassAttr n =>
      inl (AttributeError ("object '" +++ n +++ "' has no attribute '" +++ name +++ "'"))
  end.

(** The global name [datetime] in [workflow_small.py]:
    [from datetime import datetime] binds it to the class. *)
Definition global_datetime : PyObj := ClassDatetime.

Fixpoint drop_slashes (l : list ascii) : list ascii :=
  match l with
  | "/"%char :: t => drop_slashes t
  | _ => l
  end.

(** [str.rstrip('/')]. *)
Definition rstrip_slash (s : string) : string :=
  string_of_list_ascii (List.rev (drop_slashes (List.rev (list_ascii_of_string s)))).

(** External effects of the sink. *)
Inductive BlobEffect : Type :=
| ECreateContainer (container : string)
| EUpload (blob_name : string) (data : string)
| EYield (result : JsonV).

Definition is_output_effect (e : BlobEffect) : bool :=
  match e with
  | EUpload _ _ | EYield _ => true
  | ECreateContainer _ => false
  end.

Section Sink.

(** [os.environ]. *)
Variable environ : gmap string string.
(** Whether [DefaultAzureCredential(...)], [AzureCliCredential()] and the
    [BlobServiceClient] / [get_container_client] calls return. *)
Variable default_credential_ok cli_credential_ok client_ok : bool.
(** [_name_from_uri] and [_stable_id] of [tools.utils] ([None] = raises). *)
Variable name_from_uri stable_id : string -> option string.
(** [utcnow().strftime("%Y/%m/%d")] if it were reached, and the
    compact [json.dumps(...).encode()]. *)
Variable utc_day : string.
Variable json_dumps_compact : JsonV -> string.

(** [datetime.datetime.utcnow().strftime("%Y/%m/%d")]. *)
Definition date_path : PyExc + string :=
  let? c := py_getattr global_datetime "datetime" in
  let? f := py_getattr c "utcnow" in
  match f with
  | ClassAttr "utcnow" => inr utc_day
  | _ => inl (TypeError "not callable")
  end.

(** [save_result_to_blob(prev, ctx)]: the outcome and the effects, in
    order. *)
Definition save_result_to_blob (prev : list (string * JsonV)) : (PyExc + unit) * list BlobEffect :=
  match environ !! "AZURE_STORAGE_ACCOUNT_URL" with
  | None => (inl (KeyError "AZURE_STORAGE_ACCOUNT_URL"), [])
  | Some account_url =>
  match environ !! "AZURE_STORAGE_CONTAINER" with
  | None => (inl (KeyError "AZURE_STORAGE_CONTAINER"), [])
  | Some container =>
  if negb (default_credential_ok || cli_credential_ok) then
    (inl (StepFailure "credential"), [])
  else if negb client_ok then (inl (StepFailure "BlobServiceClient"), [])
  else
    (* [cc.create_container()], exceptions swallowed *)
    let tr := [ECreateContainer container] in
    let src := py_str (obj_get "source_uri" (JStr "n/a") prev) in
    match name_from_uri src with
    | None => (inl (StepFailure "_name_from_uri"), tr)
    | Some fname =>
    match stable_id (src +++ "|" +++ py_str (obj_get "approval_id" (JStr "") prev)) with
    | None => (inl (StepFailure "_stable_id"), tr)
    | Some rid =>
    match date_path with
    | inl e => (inl e, tr)
    | inr day =>
        let blob_name := "runs/" +++ day +++ "/" +++ fname +++ "-" +++ rid +++ ".json" in
        let payload_fields :=
          [("source_uri", JStr src); ("status", obj_get "status" JNull prev);
           ("comment", obj_get "comment" JNull prev);
           ("approval_id", obj_get "approval_id" JNull prev);
           ("preview", obj_get "preview" JNull prev);
           ("timestamp_utc", obj_get "timestamp_utc" JNull prev);
           ("workflow", JObj [("name", JStr "doc_20_page_workflow");
                              ("node", JStr "save_results"); ("version", JStr "v1")])] in
        let data := json_dumps_compact (JObj payload_fields) in
        let blob_url := rstrip_slash account_url +++ "/" +++ container +++ "/" +++ blob_name in
        (inr tt, tr ++ [EUpload blob_name data;
                        EYield (JObj (payload_fields ++
                                  [("blob_url", JStr blob_url); ("blob_name", JStr blob_name);
                                   ("container", JStr container)]))])
    end end end
  end end.

End Sink.

End BlobSink.

(* ------------------------------------------------------------------ *)
(** ** [src/workflow_one.py]: compliance parsing and routing *)

Module WorkflowOne.

Record HumanReviewPacket := {
  hr_document_uri : string;
  summary : string;
  compliance_notes : string;
  hr_prompt : string }.

(** The call [ctx.send_message(message, target_id)] that ends
    [on_compliance], with its two arguments in the source's order: the
    first is the message sent, the second the [target_id]. *)
Inductive Sent : Type :=
| SentDict (message : string) (target_id : JsonV)
| SentPacket (message : string) (target_id : HumanReviewPacket).

Definition has_key (k : string) (l : list (string * JsonV)) : bool :=
  existsb (fun kv => String.eqb (fst kv) k) l.

Section Parse.

Variable json_loads : string -> option JsonV.

(** The value returned by the [except] branch. *)
Definition forced_review (text : string) : JsonV :=
  JObj [("compliance", JObj [("is_compliant", JBool false); ("notes", JArr [JStr text])]);
        ("needs_human_review", JBool true)].

(** [_parse_compliance_json(text)]: [json.loads(text or "{}")]; on a dict,
    add [compliance = {}] if missing and [setdefault("needs_human_review",
    False)]; any exception (decode error, or [in] / item assignment /
    [setdefault] on a non-dict) yields [forced_review text]. *)
Definition _parse_compliance_json (text : string) : JsonV :=
  match json_loads (if str_truthy text then text else "{}") with
  | None => forced_review text
  | Some (JObj l) =>
      let l1 := if has_key "compliance" l then l else l ++ [("compliance", JObj [])] in
      let l2 := if has_key "needs_human_review" l1 then l1
                else l1 ++ [("needs_human_review", JBool false)] in
      JObj l2
  | Some _ => forced_review text
  end.

(** The [notes] shown to the reviewer. *)
Definition notes_text (notes : JsonV) : string :=
  match notes with
  | JArr l => String.concat "; " (List.map py_str l)
  | v => py_str v
  end.

(** [ctx.state] on agent_framework's [WorkflowContext]: the class defines
    no [state] attribute, so the access raises AttributeError.  The
    context's state is passed as [ctx_state]: [None] for that class,
    [Some d] for a context that did carry a state dict [d]. *)
Definition ctx_state_exc : PyExc :=
  AttributeError "'WorkflowContext' object has no attribute 'state'".

Definition get_ctx_state (ctx_state : option (list (string * JsonV)))
  : PyExc + list (string * JsonV) :=
  match ctx_state with
  | None => inl ctx_state_exc
  | Some d => inr d
  end.

(** [ComplianceAdapter.on_compliance]: [comp_text] is the agent's text
    ([result.agent_run_response.text or ""]).  Returns the state dict after
    the handler's write and the [send_message] call it makes. *)
Definition on_compliance (comp_text : string) (ctx_state : option (list (string * JsonV)))
  : PyExc + (list (string * JsonV) * Sent) :=
  let? st0 := get_ctx_state ctx_state in
  let st := dict_set "compliance_text" (JStr comp_text) st0 in
  let comp := _parse_compliance_json comp_text in
  let? c := py_get comp "compliance" (JObj []) in
  let? ic := py_get c "is_compliant" (JBool false) in
  let? nh := py_get comp "needs_human_review" (JBool false) in
  if truthy ic && negb (truthy nh) then
    inr (st, SentDict "save_results"
               (JObj [("approved", JBool true); ("auto", JBool true); ("compliance", comp)]))
  else
    let extracted_text := py_str (obj_get "extractor_text" (JStr "") st) in
    let? notes := py_get c "notes" (JArr []) in
    let nt := notes_text notes in
    inr (st, SentPacket "human_review_exec"
               {| hr_document_uri := py_str (obj_get "document_uri" (JStr "") st);
                  summary := cp_take 1000 extracted_text;
                  compliance_notes := if str_truthy nt then nt else "(no notes)";
                  hr_prompt := "Approve or Reject? (type 'approve' / 'reject')" |}).

End Parse.

End WorkflowOne.

(* ------------------------------------------------------------------ *)
(** ** Concrete collaborators (for evaluating the model on inputs) *)

Module Concrete.
Import WorkflowSmall.

Definition hex_digit (n : nat) : string :=
  String (ascii_of_nat (if Nat.ltb n 10 then 48 + n else 87 + n)) EmptyString.

(** The escape [json.dumps] writes for one ASCII character. *)
Definition json_escape_char (c : ascii) : string :=
  let n := nat_of_ascii c in
  if Nat.eqb n 34 then "\" +++ String c EmptyString
  else if Nat.eqb n 92 then "\\"
  else if Nat.eqb n 10 then "\n"
  else if Nat.eqb n 13 then "\r"
  else if Nat.eqb n 9 then "\t"
  else if Nat.ltb n 32 then "\u00" +++ hex_digit (n / 16) +++ hex_digit (n mod 16)
  else String c EmptyString.

Fixpoint json_escape (s : string) : string :=
  match s with
  | EmptyString => EmptyString
  | String c s' => json_escape_char c +++ json_escape s'
  end.

Definition json_quote (s : string) : string :=
  String (ascii_of_nat 34) (json_escape s +++ String (ascii_of_nat 34) EmptyString).

(** Python's [json.dumps] with its default separators, on ASCII text. *)
Fixpoint py_json_dumps (v : JsonV) : string :=
  match v with
  | JNull => "null"
  | JBool true => "true"
  | JBool false => "false"
  | JNum z => py_str_Z z
  | JStr s => json_quote s
  | JArr l => "[" +++ String.concat ", " (List.map py_json_dumps l) +++ "]"
  | JObj l =>
      "{" +++ String.concat ", "
        (List.map (fun kv => json_quote (fst kv) +++ ": " +++ py_json_dumps (snd kv)) l)
      +++ "}"
  end.

(** [uuid4] as a deterministic stream of distinct ids. *)
Definition uuid_stream (n : nat) : string := "uuid-" +++ py_str_Z (Z.of_nat n).

(** [json.loads] on the strings used below; every other string is taken as
    a decode error. *)
Definition dq : string := String (ascii_of_nat 34) EmptyString.

Definition compliant_text : string :=
  "{" +++ dq +++ "compliance" +++ dq +++ ": {" +++ dq +++ "is_compliant" +++ dq +++ ": true, "
  +++ dq +++ "notes" +++ dq +++ ": []}, " +++ dq +++ "needs_human_review" +++ dq +++ ": false}".

Definition json_loads_table (s : string) : option JsonV :=
  if String.eqb s "{}" then Some (JObj [])
  else if String.eqb s compliant_text then
    Some (JObj [("compliance", JObj [("is_compliant", JBool true); ("notes", JArr [])]);
                ("needs_human_review", JBool false)])
  else None.

Definition doc1 : DocInput :=
  {| document_uri := "doc-1"; document_title := None; page_count := None |}.

Definition empty_run : RunState :=
  {| approval_context := ∅; pending_requests := ∅; uuid_ctr := 0 |}.

Definition extractor_ok (_ : string) : option string := Some "extracted text".

Definition evaluator_returning (out : string) (_ : string) : option string := Some out.

(** The Bridge on [workflow_small] with these collaborators. *)
Definition engine_start_c : DocInput -> RunState -> PassResult :=
  run_stream uuid_stream extractor_ok (evaluator_returning compliant_text) json_loads_table
    py_json_dumps.

Definition engine_resume_c : list (string * ApprovalResponse) -> RunState -> PassResult :=
  send_responses_streaming uuid_stream extractor_ok (evaluator_returning compliant_text)
    json_loads_table py_json_dumps.

Definition session1 : Bridge.Session :=
  {| Bridge.status := "initializing"; Bridge.sess_document_uri := "doc-1";
     Bridge.pending_responses := None |}.

Definition bridge1 : Bridge.BridgeState :=
  {| Bridge.workflow_sessions := {[ "s1" := session1 ]}; Bridge.pending_approvals := ∅ |}.

(** The reviewer approves the request within the first second. *)
Definition approve_first (k : nat) : list Bridge.ApprovalDecision :=
  match k with
  | 0 => [{| Bridge.request_id := "uuid-1"; Bridge.d_approval_id := "uuid-0";
             Bridge.d_approved := true; Bridge.d_comment := None |}]
  | _ => []
  end.

(** Nobody answers. *)
Definition no_answers (_ : nat) : list Bridge.ApprovalDecision := [].

(** The request the gate holds after the first pass on [doc1]. *)
Definition req1 : ApprovalRequest :=
  {| approval_id := "uuid-0"; title := "Manual approval required";
     message := "Please review the extracted result."; source_uri := JStr "n/a";
     preview := JStr "No preview" |}.

(** The [pending_approvals] entry the Bridge stores for it. *)
Definition pending1 : Bridge.PendingApproval :=
  {| Bridge.pa_session_id := "s1";
     Bridge.approval_data :=
       {| Bridge.ad_request_id := "uuid-1"; Bridge.ad_approval_id := "uuid-0";
          Bridge.ad_title := "Manual approval required";
          Bridge.ad_message := "Please review the extracted result.";
          Bridge.ad_source_uri := JStr "n/a"; Bridge.ad_preview := JStr "No preview" |} |}.

(** A pass of some graph that ends with no output, no request and no
    error. *)
Definition drained_start (_ : DocInput) (rs : RunState) : PassResult :=
  ([WProgress "extraction" "running"], None, rs).

End Concrete.

(* ------------------------------------------------------------------ *)
(** ** Reference model of the round-trip property, from the spec's words *)

Module SpecModel.
Import WorkflowSmall.

(** What the suspending step sends downstream had it received the approved
    answer synchronously as input: the payload in flight, unchanged. *)
Definition synchronous_approval_sends (in_flight : string) : list Send :=
  [(None, MStr in_flight)].

End SpecModel.

(* ------------------------------------------------------------------ *)
(** ** [src/workflow_api.py]: the session endpoints *)

Module Api.
Import WorkflowSmall Bridge.

(** The body of [POST /api/workflow/start] ([created_at] left out). *)
Record WorkflowStartRequest := {
  req_document_uri : string;
  req_document_title : option string;
  req_page_count : option Z }.

Record StartReply := {
  reply_session_id : string;
  reply_message : string }.

(** [start_workflow]: [session_id] is the fresh [str(uuid.uuid4())]. *)
Definition start_workflow (session_id : string) (request : WorkflowStartRequest)
  (bs : BridgeState) : StartReply * BridgeState :=
  ({| reply_session_id := session_id;
      reply_message := "Workflow session created. Connect to /api/workflow/{session_id}/events for real-time updates." |},
   {| workflow_sessions :=
        <[session_id := {| status := "initializing";
                           sess_document_uri := req_document_uri request;
                           pending_responses := None |}]> (workflow_sessions bs);
      pending_approvals := pending_approvals bs |}).

(** [get_workflow_status]. *)
Definition get_workflow_status (session_id : string) (bs : BridgeState) : HttpError + Session :=
  match workflow_sessions bs !! session_id with
  | None => inl {| status_code := 404; detail := "Workflow session not found" |}
  | Some s => inr s
  end.

(** Requests to the API, in the order the server handles them; a stream
    request carries the engine of the workflow it builds, whether
    [workflow_small] returned, and the answers posted while it polls. *)
Inductive ApiOp : Type :=
| ApiStart (session_id : string) (request : WorkflowStartRequest)
| ApiApprove (decision : ApprovalDecision)
| ApiStream (session_id : string) (build_ok : bool) (rs0 : RunState)
    (engine_start : DocInput -> RunState -> PassResult)
    (engine_resume : list (string * ApprovalResponse) -> RunState -> PassResult)
    (schedule : nat -> list ApprovalDecision).

(** [stream_workflow_events]: 404 for an unknown session, else the
    generator runs to its end. *)
Definition stream_workflow_events engine_start engine_resume schedule (build_ok : bool)
  (session_id : string) (rs0 : RunState) (bs : BridgeState)
  : HttpError + (list Rec * BridgeState) :=
  match workflow_sessions bs !! session_id with
  | None => inl {| status_code := 404; detail := "Workflow session not found" |}
  | Some session => inr (event_generator engine_start engine_resume schedule build_ok
                           session_id session rs0 bs)
  end.

Definition apply_op (bs : BridgeState) (op : ApiOp) : BridgeState :=
  match op with
  | ApiStart sid req => snd (start_workflow sid req bs)
  | ApiApprove d => match submit_approval d bs with inl _ => bs | inr (_, bs') => bs' end
  | ApiStream sid ok rs0 es er sch =>
      match stream_workflow_events es er sch ok sid rs0 bs with
      | inl _ => bs
      | inr (_, bs') => bs'
      end
  end.

Definition run_api (ops : list ApiOp) (bs : BridgeState) : BridgeState :=
  List.fold_left apply_op ops bs.

(** Every session in [workflow_sessions] has the status [start_workflow]
    gave it. *)
Definition sessions_initializing (bs : BridgeState) : Prop :=
  map_Forall (fun _ s => status s = "initializing") (workflow_sessions bs).

(** The module-level dicts when the server starts. *)
Definition initial_bridge : BridgeState :=
  {| workflow_sessions := ∅; pending_approvals := ∅ |}.

End Api.

(* ------------------------------------------------------------------ *)
(** ** [src/main.py]: [run_once], the console driver of [workflow_small] *)

Module MainRun.
Import WorkflowSmall.

(** What [run_once] can raise: an engine exception, [EOFError] from
    [input()] at the end of the input; [OutOfFuel] marks the bound put on
    the [while True] loop. *)
Inductive RunOnceExc : Type :=
| REngine (e : PyExc)
| EOFError
| OutOfFuel.

(** The text split into code points, each with its UTF-8 bytes. *)
Fixpoint utf8_chars (s : string) : list string :=
  match s with
  | EmptyString => []
  | String c s' =>
      match utf8_chars s' with
      | (String c0 _ as g) :: gs => if is_cont c0 then String c g :: gs
                                    else String c EmptyString :: g :: gs
      | gs => String c EmptyString :: gs
      end
  end.

Definition bytes (l : list nat) : string :=
  string_of_list_ascii (List.map ascii_of_nat l).

(** The characters for which [str.isspace] holds, in UTF-8: \t, \n, \x0b,
    \x0c, \r, \x1c-\x1f, space, U+0085, U+00A0, U+1680, U+2000-U+200A,
    U+2028, U+2029, U+202F, U+205F and U+3000. *)
Definition py_space_chars : list string :=
  List.map (fun n => bytes [n]) [9; 10; 11; 12; 13; 28; 29; 30; 31; 32] ++
  [bytes [194; 133]; bytes [194; 160]; bytes [225; 154; 128]] ++
  List.map (fun n => bytes [226; 128; n]) [128; 129; 130; 131; 132; 133; 134; 135; 136; 137; 138] ++
  [bytes [226; 128; 168]; bytes [226; 128; 169]; bytes [226; 128; 175];
   bytes [226; 129; 159]; bytes [227; 128; 128]].

Definition is_py_space (ch : string) : bool :=
  existsb (String.eqb ch) py_space_chars.

Fixpoint drop_spaces (l : list string) : list string :=
  match l with
  | ch :: t => if is_py_space ch then drop_spaces t else l
  | [] => []
  end.

(** [str.strip()]: leading and trailing whitespace code points removed. *)
Definition py_strip (s : string) : string :=
  String.concat "" (List.rev (drop_spaces (List.rev (drop_spaces (utf8_chars s))))).

Definition lower_char (c : ascii) : ascii :=
  let n := nat_of_ascii c in
  if (65 <=? n) && (n <=? 90) then ascii_of_nat (n + 32) else c.

(** [str.lower()] on the ASCII letters; other characters are kept.  No
    character but [Y] lowers to [y], so the test [lower() == 'y'] made by
    [run_once] is the one of Python. *)
Fixpoint py_lower (s : string) : string :=
  match s with
  | EmptyString => EmptyString
  | String c s' => String (lower_char c) (py_lower s')
  end.

(** The [async for event in stream] loop: the data of the first
    [WorkflowOutputEvent] (which returns), else the collected
    [RequestInfoEvent]s. *)
Fixpoint scan (evs : list WEvent) : option Msg * list (string * ApprovalRequest) :=
  match evs with
  | [] => (None, [])
  | WOutput m :: _ => (Some m, [])
  | WRequestInfo rid r :: t => let '(o, rs) := scan t in (o, (rid, r) :: rs)
  | _ :: t => scan t
  end.

(** The review of the collected requests: for each one [input()] is read
    twice, the decision ([strip().lower() == 'y']) and the comment
    ([strip() or None]). *)
Fixpoint ask (reqs : list (string * ApprovalRequest)) (inputs : list string)
  (acc : list (string * ApprovalResponse))
  : RunOnceExc + (list (string * ApprovalResponse) * list string) :=
  match reqs with
  | [] => inr (acc, inputs)
  | (rid, req) :: rest =>
      match inputs with
      | [] => inl EOFError
      | d :: in1 =>
          match in1 with
          | [] => inl EOFError
          | c :: in2 =>
              let decision := String.eqb (py_lower (py_strip d)) "y" in
              let comment := if str_truthy (py_strip c) then Some (py_strip c) else None in
              ask rest in2 (dict_set rid {| resp_approval_id := approval_id req;
                                           approved := decision; comment := comment |} acc)
          end
      end
  end.

Section RunOnce.

(** [workflow.run_stream] and [workflow.send_responses_streaming]. *)
Variable run_stream_w : DocInput -> RunState -> PassResult.
Variable send_w : list (string * ApprovalResponse) -> RunState -> PassResult.

(** The [while True] loop of [run_once]; [None] is Python's [None] returned
    after [break]. *)
Fixpoint run_once_loop (fuel : nat) (doc : DocInput) (pending : list (string * ApprovalResponse))
  (rs : RunState) (inputs : list string) : RunOnceExc + option Msg :=
  match fuel with
  | 0 => inl OutOfFuel
  | S f =>
      let '(evs, err, rs') := match pending with
                              | [] => run_stream_w doc rs
                              | _ :: _ => send_w pending rs
                              end in
      match scan evs with
      | (Some m, _) => inr (Some m)
      | (None, reqs) =>
          match err with
          | Some e => inl (REngine e)
          | None =>
              match reqs with
              | [] => inr None
              | _ :: _ =>
                  match ask reqs inputs [] with
                  | inl e => inl e
                  | inr (pending', inputs') => run_once_loop f doc pending' rs' inputs'
                  end
              end
          end
      end
  end.

Definition run_once_fuel : nat := 16.

(** [run_once(input_data, workflow)] on the console lines [inputs]. *)
Definition run_once (doc : DocInput) (rs : RunState) (inputs : list string) : RunOnceExc + option Msg :=
  run_once_loop run_once_fuel doc [] rs inputs.

End RunOnce.

End MainRun.


(* ================================================================== *)
(** * Properties *)

Module Facts.
Import WorkflowSmall Exec Bridge Concrete SpecModel.

(** The document graph in the Bridge's scenario: one pass suspends at the
    gate with one request. *)
Example first_pass_doc1 :
  let '(evs, err, _) := engine_start_c doc1 empty_run in
  err = None /\ length evs = 5.
Proof. vm_compute. split; reflexivity. Qed.

(** C1 (code_bug): an answer posted through [submit_approval] lands in
    [workflow_sessions["s1"]["pending_responses"]], while the wait loop polls
    the generator's local [pending_responses] dict; so the stream still ends
    with the timeout error, the engine is never resumed and no
    [workflow_completed] is emitted. *)
Theorem answer_posted_never_reaches_poll :
  let '(recs, bs') :=
    event_generator engine_start_c engine_resume_c approve_first true "s1" session1
      empty_run bridge1 in
  last recs = Some (RError "Approval timeout - no response received") /\
  Forall (fun r => is_terminal r = true -> r = RError "Approval timeout - no response received") recs /\
  pending_approvals bs' !! "uuid-1" = None /\
  (exists sess slot, workflow_sessions bs' !! "s1" = Some sess /\
     pending_responses sess = Some slot /\ is_Some (slot !! "uuid-1")).
Proof.
  vm_compute. split; [reflexivity|]. split.
  - repeat constructor; discriminate.
  - split; [reflexivity|]. do 2 eexists. split; [reflexivity|]. split; [reflexivity|].
    eexists. reflexivity.
Qed.


(** ** The Bridge's polling wait *)

Lemma forallb_empty_local (reqs : list string) :
  reqs <> [] ->
  forallb (fun r => bool_decide (is_Some ((∅ : gmap string ApprovalResponse) !! r))) reqs = false.
Proof.
  destruct reqs as [|r rs]; [congruence|]. intros _. simpl.
  rewrite lookup_empty, bool_decide_eq_false_2; [reflexivity|].
  intros [x Hx]; discriminate.
Qed.

(** The local buffer the loop polls is the empty dict, so a non-empty batch
    is never ready, whatever is submitted meanwhile. *)
Lemma local_buffer_never_filled schedule n waited reqs last bs :
  reqs <> [] ->
  fst (wait_loop schedule n waited reqs ∅ last bs) =
  match n with 0 => last | S _ => Some false end.
Proof.
  intros Hne. revert waited last bs.
  induction n as [|n IH]; intros waited last bs; [reflexivity|]. simpl.
  rewrite (forallb_empty_local reqs Hne). rewrite IH. destruct n; reflexivity.
Qed.

(** One iteration of [while True] from the empty local dict. *)
Lemma gen_loop_first_pass engine_start engine_resume schedule f sid doc rs bs evs err rs1 :
  engine_start doc rs = (evs, err, rs1) ->
  gen_loop engine_start engine_resume schedule (S f) sid doc ∅ rs bs =
  let t := translate sid evs bs in
  if tr_returned t then (tr_records t, tr_state t)
  else match err with
       | Some e => (tr_records t ++ [RError (exc_message e)], tr_state t)
       | None =>
           match tr_requests t with
           | [] => (tr_records t, tr_state t)
           | _ :: _ =>
               (tr_records t ++ [RWaitingForApproval (length (tr_requests t));
                                 RError "Approval timeout - no response received"],
                snd (wait_loop schedule max_wait 0 (tr_requests t) ∅ None (tr_state t)))
           end
       end.
Proof.
  intros Hs. cbn [gen_loop]. rewrite bool_decide_eq_true_2 by reflexivity. rewrite Hs.
  cbv zeta.
  destruct (tr_returned (translate sid evs bs)); [reflexivity|].
  destruct err as [e|]; [reflexivity|].
  destruct (tr_requests (translate sid evs bs)) as [|r rs'] eqn:Hr; [reflexivity|].
  remember (wait_loop schedule max_wait 0 (r :: rs') ∅ None (tr_state (translate sid evs bs)))
    as W eqn:HW.
  destruct W as [ready bs2].
  pose proof (local_buffer_never_filled schedule max_wait 0 (r :: rs') None
                (tr_state (translate sid evs bs)) ltac:(discriminate)) as Hw.
  rewrite <- HW in Hw. simpl in Hw. subst ready.
  rewrite <- app_assoc. reflexivity.
Qed.

(** ** What one pass contributes to the stream *)

Lemma translate_sessions sid evs bs :
  workflow_sessions (tr_state (translate sid evs bs)) = workflow_sessions bs.
Proof.
  revert bs. induction evs as [|ev evs IH]; intros bs; [reflexivity|].
  destruct ev; simpl; try rewrite IH; reflexivity.
Qed.

Lemma translate_not_returned_no_terminal sid evs bs :
  tr_returned (translate sid evs bs) = false ->
  List.filter is_terminal (tr_records (translate sid evs bs)) = [].
Proof.
  revert bs. induction evs as [|ev evs IH]; intros bs H; [reflexivity|].
  destruct ev; simpl in *; try discriminate; apply IH; assumption.
Qed.

Lemma translate_returned_last sid evs bs :
  tr_returned (translate sid evs bs) = true ->
  exists pre m, tr_records (translate sid evs bs) = pre ++ [RWorkflowCompleted sid m] /\
                List.filter is_terminal pre = [].
Proof.
  revert bs. induction evs as [|ev evs IH]; intros bs H; [discriminate|].
  destruct ev; simpl in *.
  - destruct (IH bs H) as (pre & m & E & F). exists (RProgress phase status0 :: pre), m.
    rewrite E. split; [reflexivity|]. exact F.
  - destruct (IH bs H) as (pre & m0 & E & F). exists (RHitlStatus status0 approval_id0 :: pre), m0.
    rewrite E. split; [reflexivity|]. exact F.
  - match type of H with tr_returned (translate _ _ ?b) = _ =>
      destruct (IH b H) as (pre & m & E & F) end.
    eexists (_ :: pre), m. rewrite E. split; [reflexivity|]. exact F.
  - exists [], m. split; reflexivity.
Qed.

Lemma translate_keeps_owned sid evs bs r :
  owned_by sid r bs -> owned_by sid r (tr_state (translate sid evs bs)).
Proof.
  revert bs. induction evs as [|ev evs IH]; intros bs H; [exact H|].
  destruct ev; simpl; try exact H; apply IH; try exact H.
  destruct H as (pa & Hpa & Hs). unfold owned_by; simpl.
  destruct (decide (request_id0 = r)) as [->|Hne].
  - eexists. rewrite lookup_insert_eq. split; reflexivity.
  - exists pa. rewrite lookup_insert_ne by congruence. split; assumption.
Qed.

Lemma translate_requests_owned sid evs bs r :
  In r (tr_requests (translate sid evs bs)) -> owned_by sid r (tr_state (translate sid evs bs)).
Proof.
  revert bs. induction evs as [|ev evs IH]; intros bs H; [destruct H|].
  destruct ev; simpl in *; try contradiction; try (apply IH; exact H).
  destruct H as [<-|H]; [|apply IH; exact H].
  apply translate_keeps_owned. eexists. simpl. rewrite lookup_insert_eq. split; reflexivity.
Qed.

(** ** Nothing purges a request id or an answer *)

Lemma submit_keeps_request sid r d bs ack bs' :
  is_Some (workflow_sessions bs !! sid) ->
  owned_by sid r bs \/ answered_in_slot sid r bs ->
  submit_approval d bs = inr (ack, bs') ->
  is_Some (workflow_sessions bs' !! sid) /\ (owned_by sid r bs' \/ answered_in_slot sid r bs').
Proof.
  intros Hsid Hr Hsub. unfold submit_approval in Hsub.
  destruct (pending_approvals bs !! request_id d) as [pa'|] eqn:E1; [|discriminate].
  destruct (workflow_sessions bs !! pa_session_id pa') as [s'|] eqn:E2; [|discriminate].
  injection Hsub as _ <-. unfold owned_by, answered_in_slot; simpl.
  split.
  { destruct (decide (pa_session_id pa' = sid)) as [<-|Hne].
    - rewrite lookup_insert_eq. eexists; reflexivity.
    - rewrite lookup_insert_ne by congruence. exact Hsid. }
  destruct Hr as [(pa & Hpa & Hs)|(s & slot & Hs & Hslot & Hin)].
  - destruct (decide (request_id d = r)) as [<-|Hne].
    + rewrite E1 in Hpa. injection Hpa as ->. subst sid. right.
      rewrite lookup_insert_eq. do 2 eexists. split; [reflexivity|]. split; [reflexivity|].
      rewrite lookup_insert_eq. eexists; reflexivity.
    + left. exists pa. rewrite lookup_delete_ne by congruence. split; assumption.
  - right. destruct (decide (pa_session_id pa' = sid)) as [<-|Hne].
    + rewrite lookup_insert_eq. rewrite E2 in Hs. injection Hs as ->. rewrite Hslot.
      do 2 eexists. split; [reflexivity|]. split; [reflexivity|].
      destruct (decide (request_id d = r)) as [<-|Hne'].
      * rewrite lookup_insert_eq. eexists; reflexivity.
      * rewrite lookup_insert_ne by congruence. exact Hin.
    + rewrite lookup_insert_ne by congruence. exists s, slot. auto.
Qed.

Lemma apply_submits_keeps_request sid r ds bs :
  is_Some (workflow_sessions bs !! sid) ->
  owned_by sid r bs \/ answered_in_slot sid r bs ->
  let bs' := apply_submits ds bs in
  is_Some (workflow_sessions bs' !! sid) /\ (owned_by sid r bs' \/ answered_in_slot sid r bs').
Proof.
  unfold apply_submits. revert bs. induction ds as [|d ds IH]; intros bs H1 H2; simpl.
  - split; assumption.
  - apply IH; destruct (submit_approval d bs) as [e|[ack b']] eqn:E;
      try assumption; eapply submit_keeps_request; eassumption.
Qed.

Lemma wait_loop_keeps_request schedule sid r n waited reqs local last bs :
  is_Some (workflow_sessions bs !! sid) ->
  owned_by sid r bs \/ answered_in_slot sid r bs ->
  let bs' := snd (wait_loop schedule n waited reqs local last bs) in
  owned_by sid r bs' \/ answered_in_slot sid r bs'.
Proof.
  revert waited last bs. induction n as [|n IH]; intros waited last bs H1 H2; simpl; [exact H2|].
  destruct (forallb _ reqs); [exact H2|].
  destruct (apply_submits_keeps_request sid r (schedule waited) bs H1 H2) as [H1' H2'].
  apply IH; assumption.
Qed.
(** C3 (corrected), counterexample: nobody answers; the stream ends with the
    timeout error but the request id is still in [pending_approvals]. *)
Lemma timeout_leaves_request_in_store :
  let '(recs, bs') :=
    event_generator engine_start_c engine_resume_c no_answers true "s1" session1
      empty_run bridge1 in
  last recs = Some (RError "Approval timeout - no response received") /\
  is_Some (pending_approvals bs' !! "uuid-1").
Proof.
  vm_compute. split; [reflexivity|]. eexists; reflexivity.
Qed.

(** C3 (corrected): when a pass suspends with outstanding requests and the
    batch is not complete in the generator's buffer (it never is), the
    stream ends with [waiting_for_approval] then the timeout error, with no
    resumption; nothing is purged: each request id of the batch is still in
    [pending_approvals] for this session, or, if its answer was posted, the
    answer stays in the session's [pending_responses] slot. *)
Theorem timeout_closes_stream_keeps_store
  (engine_start : DocInput -> RunState -> PassResult)
  (engine_resume : list (string * ApprovalResponse) -> RunState -> PassResult)
  (schedule : nat -> list ApprovalDecision) (sid : string) (sess : Session)
  (rs0 rs1 : RunState) (bs : BridgeState) (evs : list WEvent) :
  engine_start {| document_uri := sess_document_uri sess; document_title := None;
                  page_count := None |} rs0 = (evs, None, rs1) ->
  is_Some (workflow_sessions bs !! sid) ->
  tr_returned (translate sid evs bs) = false ->
  tr_requests (translate sid evs bs) <> [] ->
  let '(recs, bs') := event_generator engine_start engine_resume schedule true sid sess rs0 bs in
  recs = RConnected sid :: RWorkflowStarted sid (sess_document_uri sess) ::
         tr_records (translate sid evs bs) ++
         [RWaitingForApproval (length (tr_requests (translate sid evs bs)));
          RError "Approval timeout - no response received"] /\
  (forall r, In r (tr_requests (translate sid evs bs)) ->
             owned_by sid r bs' \/ answered_in_slot sid r bs').
Proof.
  intros Hs Hsid Hret Hreq. unfold event_generator; simpl negb; cbv iota.
  unfold loop_fuel.
  rewrite (gen_loop_first_pass engine_start engine_resume schedule 7 sid _ rs0 bs evs None rs1 Hs).
  cbv zeta. rewrite Hret.
  destruct (tr_requests (translate sid evs bs)) as [|r0 rs'] eqn:Hr; [congruence|].
  split; [reflexivity|].
  intros r Hin. rewrite <- Hr in Hin.
  apply wait_loop_keeps_request.
  - rewrite translate_sessions. exact Hsid.
  - left. apply translate_requests_owned. exact Hin.
Qed.

(** Witness: the Bridge's own scenario, the reviewer approving in time. *)
Lemma timeout_closes_stream_keeps_store_witness :
  engine_start_c {| document_uri := sess_document_uri session1; document_title := None;
                    page_count := None |} empty_run =
    (fst (fst (engine_start_c doc1 empty_run)), None, snd (engine_start_c doc1 empty_run)) /\
  is_Some (workflow_sessions bridge1 !! "s1") /\
  tr_returned (translate "s1" (fst (fst (engine_start_c doc1 empty_run))) bridge1) = false /\
  tr_requests (translate "s1" (fst (fst (engine_start_c doc1 empty_run))) bridge1) <> [] /\
  let '(recs, bs') :=
    event_generator engine_start_c engine_resume_c approve_first true "s1" session1
      empty_run bridge1 in
  recs = RConnected "s1" :: RWorkflowStarted "s1" (sess_document_uri session1) ::
         tr_records (translate "s1" (fst (fst (engine_start_c doc1 empty_run))) bridge1) ++
         [RWaitingForApproval
            (length (tr_requests (translate "s1" (fst (fst (engine_start_c doc1 empty_run))) bridge1)));
          RError "Approval timeout - no response received"] /\
  (forall r, In r (tr_requests (translate "s1" (fst (fst (engine_start_c doc1 empty_run))) bridge1)) ->
             owned_by "s1" r bs' \/ answered_in_slot "s1" r bs').
Proof.
  split; [vm_compute; reflexivity|].
  split; [vm_compute; eexists; reflexivity|].
  split; [vm_compute; reflexivity|].
  split; [vm_compute; discriminate|].
  apply (timeout_closes_stream_keeps_store engine_start_c engine_resume_c approve_first "s1"
           session1 empty_run (snd (engine_start_c doc1 empty_run)) bridge1
           (fst (fst (engine_start_c doc1 empty_run)))).
  - vm_compute; reflexivity.
  - vm_compute; eexists; reflexivity.
  - vm_compute; reflexivity.
  - vm_compute; discriminate.
Defined.

(** C8 (corrected), counterexample: a pass that ends with no output, no
    request and no error makes the generator [break] out of its loop; the
    stream then ends with no terminal record at all. *)
Lemma drained_pass_no_terminal_record :
  List.filter is_terminal
    (fst (event_generator drained_start engine_resume_c no_answers true "s1" session1
            empty_run bridge1)) = [].
Proof. vm_compute. reflexivity. Qed.

(** C8 (corrected): if the workflow cannot be built, or the first pass
    yields an output, fails, or suspends, the stream carries exactly one
    terminal record and it is the last record; if the pass drains with no
    output, no request and no error, the stream carries none. *)
Theorem one_terminal_record_unless_drained
  (engine_start : DocInput -> RunState -> PassResult)
  (engine_resume : list (string * ApprovalResponse) -> RunState -> PassResult)
  (schedule : nat -> list ApprovalDecision) (build_ok : bool) (sid : string) (sess : Session)
  (rs0 rs1 : RunState) (bs : BridgeState) (evs : list WEvent) (err : option PyExc) :
  engine_start {| document_uri := sess_document_uri sess; document_title := None;
                  page_count := None |} rs0 = (evs, err, rs1) ->
  let drained := build_ok = true /\ tr_returned (translate sid evs bs) = false /\
                 err = None /\ tr_requests (translate sid evs bs) = [] in
  let recs := fst (event_generator engine_start engine_resume schedule build_ok sid sess rs0 bs) in
  (drained -> List.filter is_terminal recs = []) /\
  (~ drained -> exists r, List.filter is_terminal recs = [r] /\ last recs = Some r).
Proof.
  intros Hs drained recs. subst drained recs.
  destruct build_ok; unfold event_generator; simpl negb; cbv iota.
  2:{ split; [intros (H & _); discriminate|]. intros _.
      exists (RError "workflow construction failed"). split; reflexivity. }
  unfold loop_fuel.
  rewrite (gen_loop_first_pass engine_start engine_resume schedule 7 sid _ rs0 bs evs err rs1 Hs).
  cbv zeta.
  destruct (tr_returned (translate sid evs bs)) eqn:Hret.
  - destruct (translate_returned_last sid evs bs Hret) as (pre & m & E & F).
    split; [intros (_ & H & _); discriminate|]. intros _.
    exists (RWorkflowCompleted sid m). simpl. rewrite E, List.filter_app, F. split; [reflexivity|].
    change (last ((RConnected sid :: RWorkflowStarted sid (sess_document_uri sess) :: pre) ++
                  [RWorkflowCompleted sid m]) = Some (RWorkflowCompleted sid m)).
    apply last_snoc.
  - pose proof (translate_not_returned_no_terminal sid evs bs Hret) as F.
    destruct err as [e|].
    + split; [intros (_ & _ & H & _); discriminate|]. intros _.
      exists (RError (exc_message e)). simpl. rewrite List.filter_app, F. split; [reflexivity|].
      change (last ((RConnected sid :: RWorkflowStarted sid (sess_document_uri sess) ::
                     tr_records (translate sid evs bs)) ++ [RError (exc_message e)]) =
              Some (RError (exc_message e))).
      apply last_snoc.
    + destruct (tr_requests (translate sid evs bs)) as [|r0 rs'] eqn:Hr.
      * split; [intros _; simpl; exact F|]. intros H. exfalso. apply H. auto.
      * split; [intros (_ & _ & _ & H); discriminate|]. intros _.
        exists (RError "Approval timeout - no response received"). simpl.
        rewrite List.filter_app, F. split; [reflexivity|].
        assert (L2 : forall (l : list Rec) a b, last (l ++ [a; b]) = Some b).
        { intros l a b. change (l ++ [a; b]) with (l ++ [a] ++ [b]).
          rewrite app_assoc. apply last_snoc. }
        rewrite !app_comm_cons. apply L2.
Qed.

(** Witness: the Bridge's scenario with the reviewer answering in time (the
    stream ends by the timeout, one terminal record). *)
Lemma one_terminal_record_unless_drained_witness :
  engine_start_c {| document_uri := sess_document_uri session1; document_title := None;
                    page_count := None |} empty_run =
    (fst (fst (engine_start_c doc1 empty_run)), snd (fst (engine_start_c doc1 empty_run)),
     snd (engine_start_c doc1 empty_run)) /\
  let drained := true = true /\
                 tr_returned (translate "s1" (fst (fst (engine_start_c doc1 empty_run))) bridge1) = false /\
                 snd (fst (engine_start_c doc1 empty_run)) = None /\
                 tr_requests (translate "s1" (fst (fst (engine_start_c doc1 empty_run))) bridge1) = [] in
  let recs := fst (event_generator engine_start_c engine_resume_c approve_first true "s1" session1
                     empty_run bridge1) in
  (drained -> List.filter is_terminal recs = []) /\
  (~ drained -> exists r, List.filter is_terminal recs = [r] /\ last recs = Some r).
Proof.
  split; [vm_compute; reflexivity|].
  apply (one_terminal_record_unless_drained engine_start_c engine_resume_c approve_first true "s1"
           session1 empty_run (snd (engine_start_c doc1 empty_run)) bridge1
           (fst (fst (engine_start_c doc1 empty_run))) (snd (fst (engine_start_c doc1 empty_run)))).
  vm_compute; reflexivity.
Defined.

(** The edges each step's message takes. *)
Lemma route_doc_prompt s : route doc_prompt None (MStr s) = [(extractor_node, MStr s)].
Proof. reflexivity. Qed.
Lemma route_extractor_node s : route extractor_node None (MStr s) = [(extractor_result_node, MStr s)].
Proof. reflexivity. Qed.
Lemma route_extractor_result_node s :
  route extractor_result_node None (MStr s) = [(compliance_node, MStr s)].
Proof. reflexivity. Qed.
Lemma route_compliance_node s :
  route compliance_node None (MStr s) = [(compliance_result_node, MStr s)].
Proof. reflexivity. Qed.
Lemma route_compliance_result_node s :
  route compliance_result_node None (MStr s) = [(hitl_coordinator, MStr s)].
Proof. reflexivity. Qed.
Lemma route_hitl_request r :
  route hitl_coordinator (Some human_review_exec) (MReq r) = [(human_review_exec, MReq r)].
Proof. reflexivity. Qed.
Lemma route_hitl_forward s :
  route hitl_coordinator None (MStr s) = [(final_result_placeholder, MStr s)].
Proof. reflexivity. Qed.
Lemma route_gate_response r resp :
  route human_review_exec None (MResp r resp) = [(hitl_coordinator, MResp r resp)].
Proof. reflexivity. Qed.

Ltac run_step :=
  cbn -[prepare_parse route];
  rewrite ?route_doc_prompt, ?route_extractor_node, ?route_extractor_result_node,
    ?route_compliance_node, ?route_compliance_result_node, ?route_hitl_request,
    ?route_hitl_forward, ?route_gate_response.

(** The first pass of [workflow_small] once both agents have answered: four
    progress events, then either the escaped AttributeError of
    [prepare_request] or the [RequestInfoEvent] of the gate. *)
Lemma first_pass_events uuid4 ext comp json_loads json_dumps doc st x y :
  ext (build_prompt_text doc) = Some x -> comp x = Some y ->
  match prepare_parse json_loads y with
  | inl e => exists rs1, run_stream uuid4 ext comp json_loads json_dumps doc st =
      ([WProgress "extraction" "running"; WProgress "extraction" "completed";
        WProgress "compliance" "running"; WProgress "compliance" "completed"], Some e, rs1)
  | inr (uri, pv) => exists rs1, run_stream uuid4 ext comp json_loads json_dumps doc st =
      ([WProgress "extraction" "running"; WProgress "extraction" "completed";
        WProgress "compliance" "running"; WProgress "compliance" "completed";
        WRequestInfo (uuid4 (S (uuid_ctr st)))
          {| approval_id := uuid4 (uuid_ctr st); title := "Manual approval required";
             message := "Please review the extracted result."; source_uri := uri;
             preview := pv |}], None, rs1)
  end.
Proof.
  intros Hx Hy. unfold run_stream, max_iterations.
  do 2 run_step. unfold extractor_node_fn. rewrite Hx. do 2 run_step.
  do 2 run_step. unfold compliance_node_fn. rewrite Hy. do 4 run_step. unfold prepare_request.
  destruct (prepare_parse json_loads y) as [e|[uri pv]]; do 4 run_step; eexists; reflexivity.
Qed.

(** C2 (corrected), counterexample: the evaluator returns the compliant
    verdict ([is_compliant] true, [needs_human_review] false), yet the stream
    carries [approval_required] and no [workflow_completed]. *)
Lemma compliant_verdict_still_asks_approval :
  json_loads_table compliant_text =
    Some (JObj [("compliance", JObj [("is_compliant", JBool true); ("notes", JArr [])]);
                ("needs_human_review", JBool false)]) /\
  let recs := fst (event_generator engine_start_c engine_resume_c no_answers true "s1" session1
                     empty_run bridge1) in
  existsb (fun r => match r with RApprovalRequired _ => true | _ => false end) recs = true /\
  existsb (fun r => match r with RWorkflowCompleted _ _ => true | _ => false end) recs = false.
Proof. vm_compute. split; [reflexivity|split; reflexivity]. Qed.

(** C2 (corrected): whatever the compliance evaluator returns, its verdict is
    never inspected: the stream carries progress(extraction) and
    progress(compliance), then either an exception escaping
    [prepare_request] (AttributeError when the output is JSON that is not a
    dict, or whose [document_details] or [document_summary] is not a dict;
    KeyError when the summary's [text] is a dict with more than 240 keys)
    or [approval_required] for the evaluator's output, the wait, and no
    [workflow_completed]. *)
Theorem compliance_verdict_never_inspected
  uuid4 ext comp json_loads json_dumps engine_resume (schedule : nat -> list ApprovalDecision)
  sid sess rs0 bs x y :
  ext (build_prompt_text {| document_uri := sess_document_uri sess; document_title := None;
                            page_count := None |}) = Some x ->
  comp x = Some y ->
  let recs := fst (event_generator (run_stream uuid4 ext comp json_loads json_dumps)
                     engine_resume schedule true sid sess rs0 bs) in
  let head := [RConnected sid; RWorkflowStarted sid (sess_document_uri sess);
               RProgress "extraction" "running"; RProgress "extraction" "completed";
               RProgress "compliance" "running"; RProgress "compliance" "completed"] in
  match prepare_parse json_loads y with
  | inl e => recs = head ++ [RError (exc_message e)]
  | inr (uri, pv) =>
      recs = head ++
        [RApprovalRequired {| ad_request_id := uuid4 (S (uuid_ctr rs0));
                              ad_approval_id := uuid4 (uuid_ctr rs0);
                              ad_title := "Manual approval required";
                              ad_message := "Please review the extracted result.";
                              ad_source_uri := uri; ad_preview := pv |};
         RWaitingForApproval 1; RError "Approval timeout - no response received"]
  end.
Proof.
  intros Hx Hy recs head. subst recs head.
  pose proof (first_pass_events uuid4 ext comp json_loads json_dumps
                {| document_uri := sess_document_uri sess; document_title := None;
                   page_count := None |} rs0 x y Hx Hy) as Hp.
  unfold event_generator; simpl negb; cbv iota. unfold loop_fuel.
  destruct (prepare_parse json_loads y) as [e|[uri pv]]; destruct Hp as [rs1 Hp];
  rewrite (gen_loop_first_pass _ engine_resume schedule 7 sid _ rs0 bs _ _ rs1 Hp);
  reflexivity.
Qed.

(** Witness: the concrete agents of [engine_start_c]. *)
Lemma compliance_verdict_never_inspected_witness :
  extractor_ok (build_prompt_text {| document_uri := sess_document_uri session1;
                                     document_title := None; page_count := None |}) =
    Some "extracted text" /\
  evaluator_returning compliant_text "extracted text" = Some compliant_text /\
  let recs := fst (event_generator (run_stream uuid_stream extractor_ok
                                      (evaluator_returning compliant_text) json_loads_table
                                      py_json_dumps)
                     engine_resume_c no_answers true "s1" session1 empty_run bridge1) in
  let head := [RConnected "s1"; RWorkflowStarted "s1" (sess_document_uri session1);
               RProgress "extraction" "running"; RProgress "extraction" "completed";
               RProgress "compliance" "running"; RProgress "compliance" "completed"] in
  match prepare_parse json_loads_table compliant_text with
  | inl e => recs = head ++ [RError (exc_message e)]
  | inr (uri, pv) =>
      recs = head ++
        [RApprovalRequired {| ad_request_id := uuid_stream (S (uuid_ctr empty_run));
                              ad_approval_id := uuid_stream (uuid_ctr empty_run);
                              ad_title := "Manual approval required";
                              ad_message := "Please review the extracted result.";
                              ad_source_uri := uri; ad_preview := pv |};
         RWaitingForApproval 1; RError "Approval timeout - no response received"]
  end.
Proof.
  split; [reflexivity|]. split; [reflexivity|].
  apply (compliance_verdict_never_inspected uuid_stream extractor_ok
           (evaluator_returning compliant_text) json_loads_table py_json_dumps engine_resume_c
           no_answers "s1" session1 empty_run bridge1 "extracted text" compliant_text);
  reflexivity.
Defined.

(** An answer for a request id the gate does not hold makes the engine's
    collection of answers fail with a CorrelationError. *)
Lemma collect_unknown_fails resps st rid resp :
  In (rid, resp) resps -> pending_requests st !! rid = None ->
  exists rid', collect_responses resps st = inl (CorrelationError rid').
Proof.
  revert st. induction resps as [|[rid' resp'] rest IH]; intros st Hin Hn; [destruct Hin|].
  simpl. destruct (pending_requests st !! rid') eqn:E; [|eexists; reflexivity].
  destruct Hin as [Heq|Hin].
  - inversion Heq; subst. congruence.
  - destruct (IH (set_pending (delete rid' (pending_requests st)) st) Hin) as [e He].
    + simpl. apply lookup_delete_None. right. exact Hn.
    + rewrite He. simpl. eexists; reflexivity.
Qed.

Lemma set_context_same st : set_context (approval_context st) st = st.
Proof. destruct st; reflexivity. Qed.

(** C4 (corrected), counterexample: the request id is known but the answer
    carries an approval id that matches nothing; [submit_approval] accepts
    it and the resumed run completes with the rejection payload instead of
    raising. *)
Lemma unmatched_approval_id_advances_run :
  approval_context (snd (engine_start_c doc1 empty_run)) !! "no-such-approval" = None /\
  (exists ack bs2,
     submit_approval {| request_id := "uuid-1"; d_approval_id := "no-such-approval";
                        d_approved := true; d_comment := None |}
       (tr_state (translate "s1" (fst (fst (engine_start_c doc1 empty_run))) bridge1)) =
     inr (ack, bs2)) /\
  fst (fst (engine_resume_c [("uuid-1", {| resp_approval_id := "no-such-approval";
                                           approved := true; comment := None |})]
              (snd (engine_start_c doc1 empty_run)))) =
    [WHitl "approved" "no-such-approval"; WOutput (MStr (py_json_dumps (rejection_json None)))] /\
  snd (fst (engine_resume_c [("uuid-1", {| resp_approval_id := "no-such-approval";
                                           approved := true; comment := None |})]
              (snd (engine_start_c doc1 empty_run)))) = None.
Proof.
  split; [vm_compute; reflexivity|].
  split; [vm_compute; do 2 eexists; reflexivity|].
  split; vm_compute; reflexivity.
Qed.

(** C4 (corrected): an unknown request id is rejected, with a 404 at
    [submit_approval] (no state is written) and with a CorrelationError at
    the engine (the run state is returned unchanged); but the approval id
    is checked nowhere.  [submit_approval] accepts a decision for a known
    request id (whose session exists) whatever its approval id, and an
    answer whose approval id is not in [APPROVAL_CONTEXT] is not rejected:
    [handle_response] records a hitl status and forwards the rejection JSON,
    and resuming a held request with such an answer ends the run with that
    JSON as its output, which the Bridge reports as [workflow_completed]. *)
Theorem unknown_request_rejected_unknown_approval_advances
  uuid4 ext comp json_loads json_dumps (bs : BridgeState)
  (st : RunState) (resps : list (string * ApprovalResponse)) rid resp (resp0 : ApprovalResponse)
  rid0 (r0 : ApprovalRequest) sid :
  (forall d : ApprovalDecision, pending_approvals bs !! request_id d = None ->
     submit_approval d bs = inl {| status_code := 404; detail := "Approval request not found" |}) /\
  (In (rid, resp) resps -> pending_requests st !! rid = None ->
     exists rid', send_responses_streaming uuid4 ext comp json_loads json_dumps resps st =
                  ([], Some (CorrelationError rid'), st)) /\
  (forall (d : ApprovalDecision) pa sess, pending_approvals bs !! request_id d = Some pa ->
     workflow_sessions bs !! pa_session_id pa = Some sess ->
     exists ack bs', submit_approval d bs = inr (ack, bs') /\
                     ack_approval_id ack = d_approval_id d) /\
  (approval_context st !! resp_approval_id resp0 = None ->
     handle_response json_dumps st resp0 =
       ([WHitl (if approved resp0 then "approved" else "rejected") (resp_approval_id resp0)],
        inr (st, [(None, MStr (json_dumps (rejection_json (comment resp0))))]))) /\
  (pending_requests st !! rid0 = Some r0 ->
   approval_context st !! resp_approval_id resp0 = None ->
   let '(evs, err, _) := send_responses_streaming uuid4 ext comp json_loads json_dumps
                           [(rid0, resp0)] st in
   evs = [WHitl (if approved resp0 then "approved" else "rejected") (resp_approval_id resp0);
          WOutput (MStr (json_dumps (rejection_json (comment resp0))))] /\
   err = None /\
   tr_records (translate sid evs bs) =
     [RHitlStatus (if approved resp0 then "approved" else "rejected") (resp_approval_id resp0);
      RWorkflowCompleted sid (MStr (json_dumps (rejection_json (comment resp0))))] /\
   tr_returned (translate sid evs bs) = true).
Proof.
  split; [|split; [|split; [|split]]].
  - intros d H. unfold submit_approval. rewrite H. reflexivity.
  - intros Hin Hn. destruct (collect_unknown_fails resps st rid resp Hin Hn) as [rid' He].
    exists rid'. unfold send_responses_streaming. rewrite He. reflexivity.
  - intros d pa sess Hp Hs. unfold submit_approval. rewrite Hp, Hs.
    do 2 eexists. split; reflexivity.
  - intros H. unfold handle_response. rewrite H. simpl.
    rewrite (delete_id (approval_context st) (resp_approval_id resp0) H), set_context_same.
    reflexivity.
  - intros Hr Ha. unfold send_responses_streaming. cbn [collect_responses]. rewrite Hr.
    cbn -[route handle_response]. rewrite route_gate_response.
    unfold max_iterations. run_step. unfold handle_response. rewrite Ha.
    do 3 run_step; (split; [reflexivity|]); (split; [reflexivity|]); split; reflexivity.
Qed.

(** Witness: an unknown request id at both entry points, and an unknown
    approval id at the coordinator. *)
Lemma unknown_request_rejected_unknown_approval_advances_witness :
  let bs := tr_state (translate "s1" (fst (fst (engine_start_c doc1 empty_run))) bridge1) in
  let st := snd (engine_start_c doc1 empty_run) in
  let d_unknown := {| request_id := "nope"; d_approval_id := "a"; d_approved := true;
                      d_comment := None |} in
  let d_known := {| request_id := "uuid-1"; d_approval_id := "no-such-approval";
                    d_approved := true; d_comment := None |} in
  let resp0 := {| resp_approval_id := "no-such-approval"; approved := true; comment := None |} in
  (pending_approvals bs !! "nope" = None /\
   submit_approval d_unknown bs =
     inl {| status_code := 404; detail := "Approval request not found" |}) /\
  (In ("nope", resp0) [("nope", resp0)] /\ pending_requests st !! "nope" = None /\
   exists rid', engine_resume_c [("nope", resp0)] st = ([], Some (CorrelationError rid'), st)) /\
  ((exists pa sess, pending_approvals bs !! "uuid-1" = Some pa /\
                    workflow_sessions bs !! pa_session_id pa = Some sess) /\
   exists ack bs', submit_approval d_known bs = inr (ack, bs') /\
                   ack_approval_id ack = "no-such-approval") /\
  (approval_context st !! "no-such-approval" = None /\
   handle_response py_json_dumps st resp0 =
     ([WHitl "approved" "no-such-approval"],
      inr (st, [(None, MStr (py_json_dumps (rejection_json None)))]))) /\
  (pending_requests st !! "uuid-1" = Some req1 /\
   let '(evs, err, _) := engine_resume_c [("uuid-1", resp0)] st in
   evs = [WHitl "approved" "no-such-approval";
          WOutput (MStr (py_json_dumps (rejection_json None)))] /\
   err = None /\
   tr_records (translate "s1" evs bridge1) =
     [RHitlStatus "approved" "no-such-approval";
      RWorkflowCompleted "s1" (MStr (py_json_dumps (rejection_json None)))] /\
   tr_returned (translate "s1" evs bridge1) = true).
Proof.
  intros bs st d_unknown d_known resp0.
  destruct (unknown_request_rejected_unknown_approval_advances uuid_stream extractor_ok
              (evaluator_returning compliant_text) json_loads_table py_json_dumps bs
              st [("nope", resp0)] "nope" resp0 resp0 "uuid-1" req1 "s1")
    as (A & B & C & D & E).
  assert (Hn : pending_approvals bs !! "nope" = None) by (vm_compute; reflexivity).
  assert (Hk : pending_approvals bs !! "uuid-1" = Some pending1) by (vm_compute; reflexivity).
  split; [split; [exact Hn | exact (A d_unknown Hn)]|].
  split; [split; [left; reflexivity|]; split; [vm_compute; reflexivity|];
          apply B; [left; reflexivity | vm_compute; reflexivity]|].
  split; [split; [do 2 eexists; split; [exact Hk | vm_compute; reflexivity]|]
         ; eapply (C d_known); [exact Hk | vm_compute; reflexivity]|].
  split; [split; [vm_compute; reflexivity | apply D; vm_compute; reflexivity]|].
  split; [vm_compute; reflexivity|].
  apply E; vm_compute; reflexivity.
Defined.

(** C5 (confirmed): a request id in [pending_approvals] (whose session
    exists; sessions are never removed) is taken once: the first
    [submit_approval] succeeds, files the answer in the session and deletes
    the id, and a second one for the same id gets the unknown-id 404.  At
    the engine, a held request is delivered once and a second answer for it
    is a CorrelationError. *)
Theorem take_exactly_once (bs : BridgeState) (d d' : ApprovalDecision) (pa : PendingApproval)
  (sess : Session) (st : RunState) rid (r : ApprovalRequest) (resp resp' : ApprovalResponse) :
  pending_approvals bs !! request_id d = Some pa ->
  workflow_sessions bs !! pa_session_id pa = Some sess ->
  request_id d' = request_id d ->
  pending_requests st !! rid = Some r ->
  (exists ack bs', submit_approval d bs = inr (ack, bs') /\
     pending_approvals bs' !! request_id d = None /\
     answered_in_slot (pa_session_id pa) (request_id d) bs' /\
     submit_approval d' bs' = inl {| status_code := 404; detail := "Approval request not found" |}) /\
  (exists st', collect_responses [(rid, resp)] st = inr (st', [(hitl_coordinator, MResp r resp)]) /\
     collect_responses [(rid, resp')] st' = inl (CorrelationError rid)).
Proof.
  intros Hp Hs Hd' Hr. split.
  - unfold submit_approval at 1. rewrite Hp, Hs.
    eexists _, _. split; [reflexivity|].
    cbn [pending_approvals workflow_sessions]. rewrite lookup_delete_eq.
    split; [reflexivity|]. split.
    + unfold answered_in_slot. cbn [workflow_sessions]. eexists _, _.
      rewrite lookup_insert_eq. split; [reflexivity|].
      split; [reflexivity|]. rewrite lookup_insert_eq. eexists; reflexivity.
    + unfold submit_approval. cbn [pending_approvals]. rewrite Hd', lookup_delete_eq.
      reflexivity.
  - eexists. simpl. rewrite Hr. simpl. split; [reflexivity|].
    simpl. rewrite lookup_delete_eq. reflexivity.
Qed.

(** Witness: the request of the first pass on [doc1]. *)
Lemma take_exactly_once_witness :
  pending_approvals (tr_state (translate "s1" (fst (fst (engine_start_c doc1 empty_run))) bridge1))
    !! "uuid-1" = Some pending1 /\
  is_Some (workflow_sessions
             (tr_state (translate "s1" (fst (fst (engine_start_c doc1 empty_run))) bridge1))
             !! "s1") /\
  pending_requests (snd (engine_start_c doc1 empty_run)) !! "uuid-1" = Some req1 /\
  (exists ack bs',
     submit_approval {| request_id := "uuid-1"; d_approval_id := "uuid-0"; d_approved := true;
                        d_comment := None |}
       (tr_state (translate "s1" (fst (fst (engine_start_c doc1 empty_run))) bridge1)) =
       inr (ack, bs') /\
     pending_approvals bs' !! "uuid-1" = None /\
     answered_in_slot "s1" "uuid-1" bs' /\
     submit_approval {| request_id := "uuid-1"; d_approval_id := "uuid-0"; d_approved := true;
                        d_comment := None |} bs' =
       inl {| status_code := 404; detail := "Approval request not found" |}) /\
  (exists st', collect_responses [("uuid-1", {| resp_approval_id := "uuid-0"; approved := true;
                                                comment := None |})]
                 (snd (engine_start_c doc1 empty_run)) =
               inr (st', [(hitl_coordinator, MResp req1 {| resp_approval_id := "uuid-0";
                                                           approved := true; comment := None |})]) /\
     collect_responses [("uuid-1", {| resp_approval_id := "uuid-0"; approved := false;
                                      comment := None |})] st' =
       inl (CorrelationError "uuid-1")).
Proof.
  split; [vm_compute; reflexivity|]. split; [vm_compute; eexists; reflexivity|].
  split; [vm_compute; reflexivity|].
  destruct (workflow_sessions
              (tr_state (translate "s1" (fst (fst (engine_start_c doc1 empty_run))) bridge1))
              !! "s1") as [sess|] eqn:Hs; [|vm_compute in Hs; discriminate].
  apply (take_exactly_once
           (tr_state (translate "s1" (fst (fst (engine_start_c doc1 empty_run))) bridge1))
           {| request_id := "uuid-1"; d_approval_id := "uuid-0"; d_approved := true;
                        d_comment := None |} {| request_id := "uuid-1"; d_approval_id := "uuid-0"; d_approved := true;
                        d_comment := None |} pending1 sess
           (snd (engine_start_c doc1 empty_run)) "uuid-1" req1).
  - vm_compute; reflexivity.
  - exact Hs.
  - reflexivity.
  - vm_compute; reflexivity.
Defined.

(** The run of [workflow_small] on [doc1] whose evaluator answers the empty
    string, approved in time: the stored payload is [""], yet the output is
    the rejection JSON. *)
Example empty_payload_end_to_end :
  let start := run_stream uuid_stream extractor_ok (evaluator_returning "") json_loads_table
                 py_json_dumps doc1 empty_run in
  option_map payload (approval_context (snd start) !! "uuid-0") = Some "" /\
  fst (fst (send_responses_streaming uuid_stream extractor_ok (evaluator_returning "")
              json_loads_table py_json_dumps
              [("uuid-1", {| resp_approval_id := "uuid-0"; approved := true; comment := None |})]
              (snd start))) =
    [WHitl "approved" "uuid-0"; WOutput (MStr (py_json_dumps (rejection_json None)))].
Proof. vm_compute. split; reflexivity. Qed.

(** C6 (code bug): resuming with the matching approved answer sends what
    the step would have sent had it received the answer synchronously
    ([synchronous_approval_sends] of the payload in flight) only when that
    payload is a non-empty string; an empty payload is replaced by the
    rejection JSON, as if the reviewer had rejected. *)
Theorem approved_resume_vs_synchronous json_dumps (st : RunState) (resp : ApprovalResponse)
  (info : ApprovalInfo) :
  approval_context st !! resp_approval_id resp = Some info ->
  approved resp = true ->
  handle_response json_dumps st resp =
    ([WHitl "approved" (resp_approval_id resp)],
     inr (set_context (delete (resp_approval_id resp) (approval_context st)) st,
          if str_truthy (payload info) then synchronous_approval_sends (payload info)
          else [(None, MStr (json_dumps (rejection_json (comment resp))))])).
Proof.
  intros Hi Ha. unfold handle_response. rewrite Hi, Ha. simpl.
  destruct (str_truthy (payload info)); reflexivity.
Qed.

(** Witness: an in-flight empty payload, approved. *)
Lemma approved_resume_vs_synchronous_witness :
  approval_context {| approval_context := {[ "uuid-0" := {| payload := ""; info_source_uri := JNull;
                                                           info_preview := JNull |} ]};
                      pending_requests := ∅; uuid_ctr := 2 |} !! "uuid-0" =
    Some {| payload := ""; info_source_uri := JNull; info_preview := JNull |} /\
  approved {| resp_approval_id := "uuid-0"; approved := true; comment := None |} = true /\
  handle_response py_json_dumps
    {| approval_context := {[ "uuid-0" := {| payload := ""; info_source_uri := JNull;
                                            info_preview := JNull |} ]};
       pending_requests := ∅; uuid_ctr := 2 |}
    {| resp_approval_id := "uuid-0"; approved := true; comment := None |} =
    ([WHitl "approved" "uuid-0"],
     inr (set_context (delete "uuid-0" {[ "uuid-0" := {| payload := ""; info_source_uri := JNull;
                                                        info_preview := JNull |} ]})
            {| approval_context := {[ "uuid-0" := {| payload := ""; info_source_uri := JNull;
                                                    info_preview := JNull |} ]};
               pending_requests := ∅; uuid_ctr := 2 |},
          if str_truthy "" then synchronous_approval_sends ""
          else [(None, MStr (py_json_dumps (rejection_json None)))])).
Proof.
  split; [reflexivity|]. split; [reflexivity|].
  exact (approved_resume_vs_synchronous py_json_dumps
           {| approval_context := {[ "uuid-0" := {| payload := ""; info_source_uri := JNull;
                                                   info_preview := JNull |} ]};
              pending_requests := ∅; uuid_ctr := 2 |}
           {| resp_approval_id := "uuid-0"; approved := true; comment := None |}
           {| payload := ""; info_source_uri := JNull; info_preview := JNull |}
           eq_refl eq_refl).
Defined.

(** C7 (corrected), counterexample: a rejection with an empty comment gets
    the remarks ["Rejected"], not the comment. *)
Lemma empty_comment_remarks_default :
  fst (fst (engine_resume_c
              [("uuid-1", {| resp_approval_id := "uuid-0"; approved := false; comment := Some "" |})]
              (snd (engine_start_c doc1 empty_run)))) =
    [WHitl "rejected" "uuid-0";
     WOutput (MStr (py_json_dumps (JObj [("overall_status", JStr "rejected_by_human");
                                         ("remarks", JStr "Rejected")])))].
Proof. vm_compute. reflexivity. Qed.

(** C7 (corrected): resuming a held request with a rejection ends the run
    with one output whose payload is the rejection JSON, with
    [overall_status] ["rejected_by_human"] and [remarks] the comment when it
    is a non-empty string and ["Rejected"] otherwise; the Bridge turns it into
    [workflow_completed]. *)
Theorem rejection_resume_completes uuid4 ext comp json_loads json_dumps (st : RunState) rid
  (r : ApprovalRequest) (resp : ApprovalResponse) sid (bs : BridgeState) :
  pending_requests st !! rid = Some r ->
  approved resp = false ->
  let '(evs, err, _) := send_responses_streaming uuid4 ext comp json_loads json_dumps
                          [(rid, resp)] st in
  evs = [WHitl "rejected" (resp_approval_id resp);
         WOutput (MStr (json_dumps (JObj [("overall_status", JStr "rejected_by_human");
                                          ("remarks", JStr (match comment resp with
                                                            | Some c => if str_truthy c then c
                                                                        else "Rejected"
                                                            | None => "Rejected" end))])))] /\
  err = None /\
  tr_records (translate sid evs bs) =
    [RHitlStatus "rejected" (resp_approval_id resp);
     RWorkflowCompleted sid (MStr (json_dumps (rejection_json (comment resp))))] /\
  tr_returned (translate sid evs bs) = true.
Proof.
  intros Hr Ha. unfold send_responses_streaming. cbn [collect_responses]. rewrite Hr.
  cbn -[route handle_response]. rewrite route_gate_response.
  unfold max_iterations. run_step. unfold handle_response. rewrite Ha. simpl andb.
  destruct (approval_context _ !! resp_approval_id resp) as [info|];
    do 3 run_step; (split; [reflexivity|]); (split; [reflexivity|]); split; reflexivity.
Qed.

(** Witness: the request of the first pass on [doc1], rejected. *)
Lemma rejection_resume_completes_witness :
  pending_requests (snd (engine_start_c doc1 empty_run)) !! "uuid-1" = Some req1 /\
  approved {| resp_approval_id := "uuid-0"; approved := false; comment := Some "no" |} = false /\
  let '(evs, err, _) := engine_resume_c
          [("uuid-1", {| resp_approval_id := "uuid-0"; approved := false; comment := Some "no" |})]
          (snd (engine_start_c doc1 empty_run)) in
  evs = [WHitl "rejected" "uuid-0";
         WOutput (MStr (py_json_dumps (JObj [("overall_status", JStr "rejected_by_human");
                                             ("remarks", JStr (if str_truthy "no" then "no"
                                                               else "Rejected"))])))] /\
  err = None /\
  tr_records (translate "s1" evs bridge1) =
    [RHitlStatus "rejected" "uuid-0";
     RWorkflowCompleted "s1" (MStr (py_json_dumps (rejection_json (Some "no"))))] /\
  tr_returned (translate "s1" evs bridge1) = true.
Proof.
  split; [vm_compute; reflexivity|]. split; [reflexivity|].
  apply (rejection_resume_completes uuid_stream extractor_ok (evaluator_returning compliant_text)
           json_loads_table py_json_dumps (snd (engine_start_c doc1 empty_run)) "uuid-1" req1
           {| resp_approval_id := "uuid-0"; approved := false; comment := Some "no" |}
           "s1" bridge1).
  - vm_compute; reflexivity.
  - reflexivity.
Defined.

(** C9 (confirmed): for every input record and every environment,
    [save_result_to_blob] raises and never uploads a blob nor yields a
    result; when the environment variables, the credential and the client
    are there and the two name helpers return, the exception is the
    AttributeError of [datetime.datetime.utcnow()] on the class [datetime]. *)
Theorem blob_sink_never_outputs environ default_credential_ok cli_credential_ok client_ok
  name_from_uri stable_id utc_day json_dumps_compact (prev : list (string * JsonV)) :
  let res := BlobSink.save_result_to_blob environ default_credential_ok cli_credential_ok
               client_ok name_from_uri stable_id utc_day json_dumps_compact prev in
  (exists e, fst res = inl e) /\
  forallb (fun e => negb (BlobSink.is_output_effect e)) (snd res) = true /\
  (forall account_url container fname rid,
     environ !! "AZURE_STORAGE_ACCOUNT_URL" = Some account_url ->
     environ !! "AZURE_STORAGE_CONTAINER" = Some container ->
     default_credential_ok || cli_credential_ok = true ->
     client_ok = true ->
     name_from_uri (py_str (obj_get "source_uri" (JStr "n/a") prev)) = Some fname ->
     stable_id (py_str (obj_get "source_uri" (JStr "n/a") prev) +++ "|" +++
                py_str (obj_get "approval_id" (JStr "") prev)) = Some rid ->
     fst res = inl (AttributeError "type object 'datetime.datetime' has no attribute 'datetime'")).
Proof.
  intros res. subst res.
  assert (Hd : BlobSink.date_path utc_day =
               inl (AttributeError "type object 'datetime.datetime' has no attribute 'datetime'"))
    by reflexivity.
  unfold BlobSink.save_result_to_blob. rewrite Hd.
  split; [|split].
  - repeat case_match; eexists; reflexivity.
  - repeat case_match; reflexivity.
  - intros u c f r Hu Hc Hcr Hcl Hf Hr.
    rewrite Hu, Hc, Hcr, Hcl. cbn [negb]. rewrite Hf, Hr. reflexivity.
Qed.

(** Witness: a complete environment, so the run reaches the date path. *)
Lemma blob_sink_never_outputs_witness :
  let env := <[ "AZURE_STORAGE_ACCOUNT_URL" := "https://acct.blob.core.windows.net/" ]>
               {[ "AZURE_STORAGE_CONTAINER" := "results" ]} : gmap string string in
  let res := BlobSink.save_result_to_blob env true false true (fun _ => Some "doc")
               (fun _ => Some "id1") "2026/10/14" py_json_dumps [("source_uri", JStr "doc.pdf")] in
  env !! "AZURE_STORAGE_ACCOUNT_URL" = Some "https://acct.blob.core.windows.net/" /\
  env !! "AZURE_STORAGE_CONTAINER" = Some "results" /\
  ((exists e, fst res = inl e) /\
   forallb (fun e => negb (BlobSink.is_output_effect e)) (snd res) = true /\
   fst res = inl (AttributeError "type object 'datetime.datetime' has no attribute 'datetime'")).
Proof.
  intros env res.
  destruct (blob_sink_never_outputs env true false true (fun _ => Some "doc") (fun _ => Some "id1")
              "2026/10/14" py_json_dumps [("source_uri", JStr "doc.pdf")]) as (A & B & C).
  split; [reflexivity|]. split; [reflexivity|].
  split; [exact A|]. split; [exact B|].
  apply (C "https://acct.blob.core.windows.net/" "results" "doc" "id1"); reflexivity.
Defined.




End Facts.

(* ================================================================== *)
(** * Further properties of the modelled code *)

Module More.
Import WorkflowSmall Exec Bridge Concrete Api MainRun WorkflowOne Facts.

(** ** Session status *)

Lemma submit_keeps_initializing d bs ack bs' :
  sessions_initializing bs -> submit_approval d bs = inr (ack, bs') -> sessions_initializing bs'.
Proof.
  intros H Hs. unfold submit_approval in Hs.
  destruct (pending_approvals bs !! request_id d) as [pa|]; [|discriminate].
  destruct (workflow_sessions bs !! pa_session_id pa) as [sess|] eqn:E; [|discriminate].
  injection Hs as _ <-. unfold sessions_initializing; simpl.
  apply map_Forall_insert_2; [exact (H _ _ E)|exact H].
Qed.

Lemma apply_submits_keeps_initializing ds bs :
  sessions_initializing bs -> sessions_initializing (apply_submits ds bs).
Proof.
  unfold apply_submits. revert bs. induction ds as [|d ds IH]; intros bs H; [exact H|].
  simpl. apply IH. destruct (submit_approval d bs) as [e|[ack b']] eqn:E; [exact H|].
  exact (submit_keeps_initializing d bs ack b' H E).
Qed.

Lemma translate_keeps_initializing sid evs bs :
  sessions_initializing bs -> sessions_initializing (tr_state (translate sid evs bs)).
Proof. unfold sessions_initializing. rewrite translate_sessions. exact id. Qed.

Lemma wait_loop_keeps_initializing schedule n waited reqs local last bs :
  sessions_initializing bs ->
  sessions_initializing (snd (wait_loop schedule n waited reqs local last bs)).
Proof.
  revert waited last bs. induction n as [|n IH]; intros waited last bs H; [exact H|].
  simpl. destruct (forallb _ reqs); [exact H|].
  apply IH, apply_submits_keeps_initializing, H.
Qed.

Lemma gen_loop_keeps_initializing es er schedule fuel sid doc local rs bs :
  sessions_initializing bs ->
  sessions_initializing (snd (gen_loop es er schedule fuel sid doc local rs bs)).
Proof.
  revert local rs bs. induction fuel as [|f IH]; intros local rs bs H; [exact H|].
  cbn [gen_loop].
  destruct (if bool_decide (local = ∅) then _ else _) as [[[evs err] rs'] local'].
  pose proof (translate_keeps_initializing sid evs bs H) as Ht.
  destruct (tr_returned (translate sid evs bs)); [exact Ht|].
  destruct err as [e|]; [exact Ht|].
  destruct (tr_requests (translate sid evs bs)) as [|r0 rs0]; [exact Ht|].
  pose proof (wait_loop_keeps_initializing schedule max_wait 0 (r0 :: rs0) local' None _ Ht) as Hw.
  destruct (wait_loop schedule max_wait 0 (r0 :: rs0) local' None _) as [ready bs2].
  destruct ready as [[|]|]; try exact Hw.
  specialize (IH local' rs' bs2 Hw).
  destruct (gen_loop es er schedule f sid doc local' rs' bs2). exact IH.
Qed.

Lemma apply_op_keeps_initializing bs op :
  sessions_initializing bs -> sessions_initializing (apply_op bs op).
Proof.
  intros H. destruct op as [sid req|d|sid ok rs0 es er sch]; unfold apply_op.
  - unfold start_workflow, sessions_initializing. cbn [snd workflow_sessions].
    apply map_Forall_insert_2; [reflexivity|exact H].
  - destruct (submit_approval d bs) as [e|[ack b']] eqn:E; [exact H|].
    exact (submit_keeps_initializing d bs ack b' H E).
  - unfold stream_workflow_events. destruct (workflow_sessions bs !! sid) as [s|]; [|exact H].
    unfold event_generator. destruct ok; cbn [negb]; [|exact H].
    pose proof (gen_loop_keeps_initializing es er sch loop_fuel sid
                  {| document_uri := sess_document_uri s; document_title := None;
                     page_count := None |} ∅ rs0 bs H) as Hg.
    destruct (gen_loop _ _ _ _ _ _ _ _ _) as [recs b']. exact Hg.
Qed.

(** [get_workflow_status] answers 404 for an unknown session, and for a
    known one a status of ["initializing"]: whatever requests the server
    handles from its start (sessions started, answers submitted, streams
    run to their end), nothing ever writes another status. *)
Theorem status_stays_initializing (ops : list ApiOp) (sid : string) :
  match get_workflow_status sid (run_api ops initial_bridge) with
  | inl e => e = {| status_code := 404; detail := "Workflow session not found" |}
  | inr s => status s = "initializing"
  end.
Proof.
  assert (H : sessions_initializing (run_api ops initial_bridge)).
  { unfold run_api. cut (sessions_initializing initial_bridge); [|apply map_Forall_empty].
    generalize initial_bridge.
    induction ops as [|op ops IH]; intros b Hb; [exact Hb|].
    simpl. apply IH, apply_op_keeps_initializing, Hb. }
  unfold get_workflow_status.
  destruct (workflow_sessions (run_api ops initial_bridge) !! sid) as [s|] eqn:E; [|reflexivity].
  exact (H _ _ E).
Qed.

(** ** One pass of the SSE translation *)

(** [translate] stops at the first [WorkflowOutputEvent]: the records,
    requests and stored approvals are those of the events before it,
    followed by one [workflow_completed] record; events after it (requests
    included) are neither yielded nor stored. *)
Theorem translate_stops_at_output sid pre m post bs :
  forallb (fun ev => match ev with WOutput _ => false | _ => true end) pre = true ->
  let t := translate sid (pre ++ WOutput m :: post) bs in
  let t0 := translate sid pre bs in
  tr_records t = tr_records t0 ++ [RWorkflowCompleted sid m] /\ tr_returned t = true /\
  tr_requests t = tr_requests t0 /\ tr_state t = tr_state t0.
Proof.
  revert bs. induction pre as [|ev pre IH]; intros bs H; simpl.
  - repeat split; reflexivity.
  - destruct ev; simpl in H; try discriminate;
      match goal with |- context [translate sid (pre ++ _) ?b] =>
        destruct (IH b H) as (E1 & E2 & E3 & E4) end; simpl;
      rewrite E1, E2, E3, E4; repeat split; reflexivity.
Qed.

(** Witness: a request, then the output, then a second request that is
    dropped. *)
Lemma translate_stops_at_output_witness :
  forallb (fun ev => match ev with WOutput _ => false | _ => true end)
    [WProgress "compliance" "completed"; WRequestInfo "r1" req1] = true /\
  let t := translate "s1" ([WProgress "compliance" "completed"; WRequestInfo "r1" req1] ++
                           WOutput (MStr "done") :: [WRequestInfo "r2" req1]) bridge1 in
  let t0 := translate "s1" [WProgress "compliance" "completed"; WRequestInfo "r1" req1] bridge1 in
  tr_records t = tr_records t0 ++ [RWorkflowCompleted "s1" (MStr "done")] /\
  tr_returned t = true /\ tr_requests t = tr_requests t0 /\ tr_state t = tr_state t0.
Proof.
  split; [reflexivity|].
  apply translate_stops_at_output. reflexivity.
Defined.

(** [event_generator] never resumes the workflow: its records and the
    tables it leaves are the same whatever [send_responses_streaming]
    would do. *)
Theorem event_generator_ignores_resume es (er1 er2 : list (string * ApprovalResponse) -> RunState -> PassResult)
  schedule build_ok sid sess rs0 bs :
  event_generator es er1 schedule build_ok sid sess rs0 bs =
  event_generator es er2 schedule build_ok sid sess rs0 bs.
Proof.
  unfold event_generator. destruct build_ok; cbn [negb]; [|reflexivity].
  unfold loop_fuel.
  destruct (es {| document_uri := sess_document_uri sess; document_title := None;
                  page_count := None |} rs0) as [[evs err] rs1] eqn:Hs.
  rewrite (gen_loop_first_pass es er1 schedule 7 sid _ rs0 bs evs err rs1 Hs).
  rewrite (gen_loop_first_pass es er2 schedule 7 sid _ rs0 bs evs err rs1 Hs).
  reflexivity.
Qed.

Lemma translate_other_approvals sid evs bs r :
  ~ In r (tr_requests (translate sid evs bs)) ->
  pending_approvals (tr_state (translate sid evs bs)) !! r = pending_approvals bs !! r.
Proof.
  revert bs. induction evs as [|ev evs IH]; intros bs H; [reflexivity|].
  destruct ev; simpl in *; try (apply IH; exact H); [|reflexivity].
  rewrite IH by tauto. simpl. apply lookup_insert_ne. tauto.
Qed.

(** Each [approval_required] record of a pass is backed by
    [pending_approvals]: under its request id the table holds this session
    and exactly the data the record carried, provided the request ids of
    the pass are distinct (a repeated id is overwritten by the later
    request). *)
Theorem approval_required_matches_store sid evs bs ad :
  NoDup (tr_requests (translate sid evs bs)) ->
  In (RApprovalRequired ad) (tr_records (translate sid evs bs)) ->
  pending_approvals (tr_state (translate sid evs bs)) !! ad_request_id ad =
    Some {| pa_session_id := sid; approval_data := ad |}.
Proof.
  revert bs. induction evs as [|ev evs IH]; intros bs Hnd Hin; [destruct Hin|].
  destruct ev; simpl in *.
  - destruct Hin as [Heq|Hin]; [discriminate|]. apply IH; assumption.
  - destruct Hin as [Heq|Hin]; [discriminate|]. apply IH; assumption.
  - inversion Hnd as [|? ? Hnotin Hnd']; subst.
    destruct Hin as [Heq|Hin].
    + injection Heq as <-. simpl.
      rewrite translate_other_approvals by (rewrite <- list_elem_of_In; exact Hnotin). simpl. apply lookup_insert_eq.
    + apply IH; assumption.
  - destruct Hin as [Heq|[]]. discriminate.
Qed.

(** Witness: the first pass of the document graph on [doc1]. *)
Lemma approval_required_matches_store_witness :
  NoDup (tr_requests (translate "s1" (fst (fst (engine_start_c doc1 empty_run))) bridge1)) /\
  In (RApprovalRequired (approval_data pending1))
     (tr_records (translate "s1" (fst (fst (engine_start_c doc1 empty_run))) bridge1)) /\
  pending_approvals (tr_state (translate "s1" (fst (fst (engine_start_c doc1 empty_run))) bridge1))
    !! ad_request_id (approval_data pending1) =
    Some {| pa_session_id := "s1"; approval_data := approval_data pending1 |}.
Proof.
  assert (Hnd : NoDup (tr_requests (translate "s1" (fst (fst (engine_start_c doc1 empty_run))) bridge1)))
    by (vm_compute; apply NoDup_singleton).
  assert (Hin : In (RApprovalRequired (approval_data pending1))
     (tr_records (translate "s1" (fst (fst (engine_start_c doc1 empty_run))) bridge1)))
    by (vm_compute; tauto).
  split; [exact Hnd|]. split; [exact Hin|].
  exact (approval_required_matches_store "s1" _ bridge1 _ Hnd Hin).
Defined.

(** ** The HITL coordinator *)

Lemma set_context_twice c c' st : set_context c (set_context c' st) = set_context c st.
Proof. destruct st; reflexivity. Qed.

(** Round trip through the gate: [prepare_request] files the payload
    under the fresh approval id it sends; answering that id forwards the
    payload when approved and the payload is non-empty (else the rejection
    JSON), and leaves [APPROVAL_CONTEXT] as it was before the request (only
    the uuid stream has advanced), provided the fresh id was not in use. *)
Theorem prepare_then_respond uuid4 json_loads json_dumps st prev b c :
  approval_context st !! uuid4 (uuid_ctr st) = None ->
  match prepare_parse json_loads prev with
  | inl e => prepare_request uuid4 json_loads st prev = ([], inl e)
  | inr (uri, pv) =>
      exists st1,
        prepare_request uuid4 json_loads st prev =
          ([], inr (st1, [(Some human_review_exec,
                           MReq {| approval_id := uuid4 (uuid_ctr st);
                                   title := "Manual approval required";
                                   message := "Please review the extracted result.";
                                   source_uri := uri; preview := pv |})])) /\
        handle_response json_dumps st1
          {| resp_approval_id := uuid4 (uuid_ctr st); approved := b; comment := c |} =
          ([WHitl (if b then "approved" else "rejected") (uuid4 (uuid_ctr st))],
           inr (bump_uuid st,
                [(None, MStr (if b && str_truthy prev then prev
                              else json_dumps (rejection_json c)))]))
  end.
Proof.
  intros Hfresh. unfold prepare_request.
  destruct (prepare_parse json_loads prev) as [e|[uri pv]]; [reflexivity|].
  eexists. split; [reflexivity|].
  unfold handle_response. cbn [resp_approval_id approved comment approval_context set_context bump_uuid].
  rewrite lookup_insert_eq. cbn [option_map payload].
  rewrite (delete_insert_id (approval_context st) _ _ Hfresh), set_context_twice.
  destruct (b && str_truthy prev); destruct st; reflexivity.
Qed.

(** Witness: the payload of a compliant verdict, from the empty run. *)
Lemma prepare_then_respond_witness :
  approval_context empty_run !! uuid_stream (uuid_ctr empty_run) = None /\
  match prepare_parse json_loads_table compliant_text with
  | inl e => prepare_request uuid_stream json_loads_table empty_run compliant_text = ([], inl e)
  | inr (uri, pv) =>
      exists st1,
        prepare_request uuid_stream json_loads_table empty_run compliant_text =
          ([], inr (st1, [(Some human_review_exec,
                           MReq {| approval_id := uuid_stream (uuid_ctr empty_run);
                                   title := "Manual approval required";
                                   message := "Please review the extracted result.";
                                   source_uri := uri; preview := pv |})])) /\
        handle_response py_json_dumps st1
          {| resp_approval_id := uuid_stream (uuid_ctr empty_run); approved := true;
             comment := None |} =
          ([WHitl (if true then "approved" else "rejected") (uuid_stream (uuid_ctr empty_run))],
           inr (bump_uuid empty_run,
                [(None, MStr (if true && str_truthy compliant_text then compliant_text
                              else py_json_dumps (rejection_json None)))]))
  end.
Proof.
  split; [reflexivity|].
  apply (prepare_then_respond uuid_stream json_loads_table py_json_dumps empty_run compliant_text
           true None).
  reflexivity.
Defined.

(** [APPROVAL_CONTEXT.pop] consumes the entry: once a response for an
    approval id has been handled, a later response with the same id gets
    the rejection JSON, even if it approves, and changes no state. *)
Theorem handle_response_consumes_entry json_dumps st resp resp' :
  resp_approval_id resp' = resp_approval_id resp ->
  exists st1 m,
    handle_response json_dumps st resp =
      ([WHitl (if approved resp then "approved" else "rejected") (resp_approval_id resp)],
       inr (st1, [(None, m)])) /\
    approval_context st1 !! resp_approval_id resp = None /\
    handle_response json_dumps st1 resp' =
      ([WHitl (if approved resp' then "approved" else "rejected") (resp_approval_id resp')],
       inr (st1, [(None, MStr (json_dumps (rejection_json (comment resp'))))])).
Proof.
  intros Hid. eexists _, _. split; [reflexivity|].
  cbn [approval_context set_context]. rewrite lookup_delete_eq. split; [reflexivity|].
  unfold handle_response at 1. rewrite Hid. cbn [approval_context set_context].
  rewrite lookup_delete_eq, delete_delete_eq, set_context_twice. reflexivity.
Qed.

(** Witness: the reviewer's approval delivered twice. *)
Lemma handle_response_consumes_entry_witness :
  resp_approval_id {| resp_approval_id := "uuid-0"; approved := true; comment := None |} =
    resp_approval_id {| resp_approval_id := "uuid-0"; approved := true; comment := None |} /\
  exists st1 m,
    handle_response py_json_dumps (snd (engine_start_c doc1 empty_run))
      {| resp_approval_id := "uuid-0"; approved := true; comment := None |} =
      ([WHitl "approved" "uuid-0"], inr (st1, [(None, m)])) /\
    approval_context st1 !! "uuid-0" = None /\
    handle_response py_json_dumps st1
      {| resp_approval_id := "uuid-0"; approved := true; comment := None |} =
      ([WHitl "approved" "uuid-0"],
       inr (st1, [(None, MStr (py_json_dumps (rejection_json None)))])).
Proof.
  split; [reflexivity|].
  exact (handle_response_consumes_entry py_json_dumps (snd (engine_start_c doc1 empty_run))
           {| resp_approval_id := "uuid-0"; approved := true; comment := None |}
           {| resp_approval_id := "uuid-0"; approved := true; comment := None |} eq_refl).
Defined.


(** ** [run_once], the console driver *)

(** The first pass with the state it leaves: the gate holds the request,
    [APPROVAL_CONTEXT] the payload. *)
Lemma first_pass_state uuid4 ext comp json_loads json_dumps doc st x y uri pv :
  ext (build_prompt_text doc) = Some x -> comp x = Some y ->
  prepare_parse json_loads y = inr (uri, pv) ->
  let req := {| approval_id := uuid4 (uuid_ctr st); title := "Manual approval required";
                message := "Please review the extracted result."; source_uri := uri;
                preview := pv |} in
  run_stream uuid4 ext comp json_loads json_dumps doc st =
    ([WProgress "extraction" "running"; WProgress "extraction" "completed";
      WProgress "compliance" "running"; WProgress "compliance" "completed";
      WRequestInfo (uuid4 (S (uuid_ctr st))) req], None,
     {| approval_context := <[uuid4 (uuid_ctr st) := {| payload := y; info_source_uri := uri;
                                                       info_preview := pv |}]> (approval_context st);
        pending_requests := <[uuid4 (S (uuid_ctr st)) := req]> (pending_requests st);
        uuid_ctr := S (S (uuid_ctr st)) |}).
Proof.
  intros Hx Hy Hp req. unfold run_stream, max_iterations.
  do 2 run_step. unfold extractor_node_fn. rewrite Hx. do 2 run_step.
  do 2 run_step. unfold compliance_node_fn. rewrite Hy. do 4 run_step. unfold prepare_request.
  rewrite Hp. do 4 run_step. reflexivity.
Qed.

(** Resuming that state with an answer for the request. *)
Lemma resume_first_pass uuid4 ext comp json_loads json_dumps st y uri pv rid req b c :
  let rs1 := {| approval_context := <[approval_id req := {| payload := y; info_source_uri := uri;
                                                            info_preview := pv |}]> (approval_context st);
                pending_requests := <[rid := req]> (pending_requests st);
                uuid_ctr := uuid_ctr st |} in
  fst (fst (send_responses_streaming uuid4 ext comp json_loads json_dumps
              [(rid, {| resp_approval_id := approval_id req; approved := b; comment := c |})] rs1)) =
    [WHitl (if b then "approved" else "rejected") (approval_id req);
     WOutput (MStr (if b && str_truthy y then y else json_dumps (rejection_json c)))].
Proof.
  intros rs1. unfold send_responses_streaming. cbn [collect_responses].
  subst rs1. cbn [pending_requests]. rewrite lookup_insert_eq.
  cbn -[route handle_response]. rewrite route_gate_response. unfold max_iterations.
  run_step. unfold handle_response. cbn [resp_approval_id approval_context set_context set_pending].
  rewrite lookup_insert_eq. cbn [option_map payload approved comment].
  destruct (b && str_truthy y); do 3 run_step; reflexivity.
Qed.

(** [run_once] on [workflow_small] once both agents have answered: if the
    gate's [prepare_request] raises, so does [run_once]; else it asks the
    console twice (decision, then comment) and returns the evaluator's
    output if the first line reads [y] (after [strip().lower()]) and the
    output is non-empty, else the rejection JSON with the stripped comment;
    with fewer than two lines of input it raises [EOFError]. *)
Theorem run_once_single_review uuid4 ext comp json_loads json_dumps doc st x y inputs :
  ext (build_prompt_text doc) = Some x -> comp x = Some y ->
  run_once (run_stream uuid4 ext comp json_loads json_dumps)
    (send_responses_streaming uuid4 ext comp json_loads json_dumps) doc st inputs =
  match prepare_parse json_loads y with
  | inl e => inl (REngine e)
  | inr _ =>
      match inputs with
      | d :: c :: _ =>
          inr (Some (MStr (if String.eqb (py_lower (py_strip d)) "y" && str_truthy y then y
                           else json_dumps (rejection_json
                                  (if str_truthy (py_strip c) then Some (py_strip c) else None)))))
      | _ => inl EOFError
      end
  end.
Proof.
  intros Hx Hy. unfold run_once, run_once_fuel. cbn [run_once_loop].
  destruct (prepare_parse json_loads y) as [e|[uri pv]] eqn:Hp.
  - pose proof (first_pass_events uuid4 ext comp json_loads json_dumps doc st x y Hx Hy) as H.
    rewrite Hp in H. destruct H as [rs1 H]. rewrite H. reflexivity.
  - rewrite (first_pass_state uuid4 ext comp json_loads json_dumps doc st x y uri pv Hx Hy Hp).
    cbn [scan ask].
    destruct inputs as [|d [|c rest]]; [reflexivity|reflexivity|].
    cbn [ask dict_set run_once_loop approval_id].
    match goal with
    | |- match send_responses_streaming _ _ _ _ _ ?l ?rs with _ => _ end = _ =>
        pose proof (resume_first_pass uuid4 ext comp json_loads json_dumps
                      {| approval_context := approval_context st;
                         pending_requests := pending_requests st;
                         uuid_ctr := S (S (uuid_ctr st)) |} y uri pv (uuid4 (S (uuid_ctr st)))
                      {| approval_id := uuid4 (uuid_ctr st); title := "Manual approval required";
                         message := "Please review the extracted result."; source_uri := uri;
                         preview := pv |}
                      (String.eqb (py_lower (py_strip d)) "y")
                      (if str_truthy (py_strip c) then Some (py_strip c) else None)) as R
    end.
    cbn [approval_context pending_requests uuid_ctr approval_id] in R.
    destruct (send_responses_streaming _ _ _ _ _ _ _) as [[evs err] rs2].
    cbn [fst] in R. subst evs. reflexivity.
Qed.

(** Witness: the concrete agents, the reviewer typing [ Y ] and no
    comment. *)
Lemma run_once_single_review_witness :
  extractor_ok (build_prompt_text doc1) = Some "extracted text" /\
  evaluator_returning compliant_text "extracted text" = Some compliant_text /\
  run_once (run_stream uuid_stream extractor_ok (evaluator_returning compliant_text)
              json_loads_table py_json_dumps)
    (send_responses_streaming uuid_stream extractor_ok (evaluator_returning compliant_text)
       json_loads_table py_json_dumps) doc1 empty_run [" Y "; "  "] =
  match prepare_parse json_loads_table compliant_text with
  | inl e => inl (REngine e)
  | inr _ =>
      match [" Y "; "  "] with
      | d :: c :: _ =>
          inr (Some (MStr (if String.eqb (py_lower (py_strip d)) "y" && str_truthy compliant_text
                           then compliant_text
                           else py_json_dumps (rejection_json
                                  (if str_truthy (py_strip c) then Some (py_strip c) else None)))))
      | _ => inl EOFError
      end
  end.
Proof.
  split; [reflexivity|]. split; [reflexivity|].
  apply (run_once_single_review uuid_stream extractor_ok (evaluator_returning compliant_text)
           json_loads_table py_json_dumps doc1 empty_run "extracted text" compliant_text);
  reflexivity.
Defined.

(** ** Compliance parsing and routing *)



Lemma parse_compliance_is_dict json_loads text :
  exists l, _parse_compliance_json json_loads text = JObj l.
Proof.
  unfold _parse_compliance_json.
  destruct (json_loads _) as [[| | | | |l0]|]; eexists; reflexivity.
Qed.


(** [on_compliance] on a context without a state dict (agent_framework's
    [WorkflowContext]) raises AttributeError at [ctx.state].  With a state
    dict, it first stores [compliance_text]; it then raises an AttributeError
    exactly when the parsed [compliance] value is not a dict.  Otherwise it
    calls [send_message("save_results", message)] with the approval message
    as the [target_id] argument exactly when [is_compliant] is truthy and
    [needs_human_review] falsy, and [send_message("human_review_exec",
    packet)] in every other case. *)
Theorem on_compliance_routes json_loads comp_text ctx_state :
  match ctx_state with
  | None => on_compliance json_loads comp_text None = inl ctx_state_exc
  | Some st0 =>
      let st := dict_set "compliance_text" (JStr comp_text) st0 in
      match _parse_compliance_json json_loads comp_text with
      | JObj l =>
          let comp := JObj l in
          match obj_get "compliance" (JObj []) l with
          | JObj cl =>
              let pass := truthy (obj_get "is_compliant" (JBool false) cl) &&
                          negb (truthy (obj_get "needs_human_review" (JBool false) l)) in
              match on_compliance json_loads comp_text (Some st0) with
              | inr (st', SentDict message target_id) =>
                  st' = st /\ pass = true /\ message = "save_results" /\
                  target_id = JObj [("approved", JBool true); ("auto", JBool true);
                                    ("compliance", comp)]
              | inr (st', SentPacket message _) =>
                  st' = st /\ pass = false /\ message = "human_review_exec"
              | inl _ => False
              end
          | _ => exists msg, on_compliance json_loads comp_text (Some st0) =
                             inl (AttributeError msg)
          end
      | _ => False
      end
  end.
Proof.
  destruct ctx_state as [st0|]; [|reflexivity].
  destruct (parse_compliance_is_dict json_loads comp_text) as [l E].
  rewrite E. cbv zeta. unfold on_compliance. cbn [get_ctx_state ebind]. rewrite E.
  cbn [py_get ebind].
  destruct (obj_get "compliance" (JObj []) l) as [| | | | |cl];
    try (eexists; reflexivity).
  cbn [py_get ebind].
  destruct (truthy (obj_get "is_compliant" (JBool false) cl) &&
            negb (truthy (obj_get "needs_human_review" (JBool false) l))) eqn:Hp.
  - repeat split; reflexivity.
  - repeat split; reflexivity.
Qed.

(** ** What [submit_approval] touches *)

(** A successful [submit_approval] changes only the answered request and its
    owner session: every other request id of [pending_approvals] and every
    other session keep their entries; the owner keeps its status and uri,
    and its [pending_responses] slot keeps the other answers and gains this
    one under the request id. *)
Theorem submit_approval_frame d bs ack bs' :
  submit_approval d bs = inr (ack, bs') ->
  exists pa sess,
    pending_approvals bs !! request_id d = Some pa /\
    workflow_sessions bs !! pa_session_id pa = Some sess /\
    pending_approvals bs' !! request_id d = None /\
    (forall r, r <> request_id d -> pending_approvals bs' !! r = pending_approvals bs !! r) /\
    (forall sid, sid <> pa_session_id pa ->
                 workflow_sessions bs' !! sid = workflow_sessions bs !! sid) /\
    (exists sess' slot',
       workflow_sessions bs' !! pa_session_id pa = Some sess' /\
       status sess' = status sess /\ sess_document_uri sess' = sess_document_uri sess /\
       pending_responses sess' = Some slot' /\
       slot' !! request_id d = Some {| resp_approval_id := d_approval_id d;
                                      approved := d_approved d; comment := d_comment d |} /\
       (forall r, r <> request_id d ->
          slot' !! r = match pending_responses sess with Some s => s !! r | None => None end)) /\
    ack = {| ack_status := "success";
             ack_message := "Approval " +++ (if d_approved d then "granted" else "rejected");
             ack_approval_id := d_approval_id d |}.
Proof.
  intros Hs. unfold submit_approval in Hs.
  destruct (pending_approvals bs !! request_id d) as [pa|] eqn:E1; [|discriminate].
  destruct (workflow_sessions bs !! pa_session_id pa) as [sess|] eqn:E2; [|discriminate].
  injection Hs as <- <-. exists pa, sess. cbn [pending_approvals workflow_sessions].
  split; [reflexivity|]. split; [exact E2|].
  split; [apply lookup_delete_eq|].
  split; [intros r Hr; apply lookup_delete_ne; congruence|].
  split; [intros sid Hsid; apply lookup_insert_ne; congruence|].
  split; [|reflexivity].
  eexists _, _. rewrite lookup_insert_eq. split; [reflexivity|].
  cbn [status sess_document_uri pending_responses].
  split; [reflexivity|]. split; [reflexivity|]. split; [reflexivity|].
  split; [apply lookup_insert_eq|].
  intros r Hr. rewrite lookup_insert_ne by congruence.
  destruct (pending_responses sess); [reflexivity|apply lookup_empty].
Qed.

(** Witness: answering the request stored by the first pass on [doc1]. *)
Lemma submit_approval_frame_witness :
  exists ack bs',
    submit_approval {| request_id := "uuid-1"; d_approval_id := "uuid-0"; d_approved := true;
                       d_comment := Some "ok" |}
      (tr_state (translate "s1" (fst (fst (engine_start_c doc1 empty_run))) bridge1)) =
      inr (ack, bs') /\
    exists pa sess,
      pending_approvals (tr_state (translate "s1" (fst (fst (engine_start_c doc1 empty_run))) bridge1))
        !! "uuid-1" = Some pa /\
      workflow_sessions (tr_state (translate "s1" (fst (fst (engine_start_c doc1 empty_run))) bridge1))
        !! pa_session_id pa = Some sess /\
      pending_approvals bs' !! "uuid-1" = None /\
      (forall r, r <> "uuid-1" -> pending_approvals bs' !! r =
         pending_approvals (tr_state (translate "s1" (fst (fst (engine_start_c doc1 empty_run))) bridge1)) !! r) /\
      (forall sid, sid <> pa_session_id pa -> workflow_sessions bs' !! sid =
         workflow_sessions (tr_state (translate "s1" (fst (fst (engine_start_c doc1 empty_run))) bridge1)) !! sid) /\
      (exists sess' slot',
         workflow_sessions bs' !! pa_session_id pa = Some sess' /\
         status sess' = status sess /\ sess_document_uri sess' = sess_document_uri sess /\
         pending_responses sess' = Some slot' /\
         slot' !! "uuid-1" = Some {| resp_approval_id := "uuid-0"; approved := true;
                                    comment := Some "ok" |} /\
         (forall r, r <> "uuid-1" ->
            slot' !! r = match pending_responses sess with Some s => s !! r | None => None end)) /\
      ack = {| ack_status := "success"; ack_message := "Approval " +++ "granted";
               ack_approval_id := "uuid-0" |}.
Proof.
  eexists _, _. split; [vm_compute; reflexivity|].
  exact (submit_approval_frame
           {| request_id := "uuid-1"; d_approval_id := "uuid-0"; d_approved := true;
              d_comment := Some "ok" |}
           (tr_state (translate "s1" (fst (fst (engine_start_c doc1 empty_run))) bridge1)) _ _
           ltac:(vm_compute; reflexivity)).
Defined.

(** ** The polling wait and failing agents *)

(** While the batch is not ready (the generator's buffer is the empty dict,
    so never), [wait_loop] takes all of its [n] polls: the tables it leaves
    are those after the submissions of every sleep [waited], ...,
    [waited + n - 1], in that order, none skipped. *)
Theorem wait_loop_all_polls schedule n waited reqs last bs :
  reqs <> [] ->
  snd (wait_loop schedule n waited reqs ∅ last bs) =
  List.fold_left (fun b k => apply_submits (schedule k) b) (List.seq waited n) bs.
Proof.
  intros Hne. revert waited last bs.
  induction n as [|n IH]; intros waited last bs; [reflexivity|].
  simpl. rewrite (forallb_empty_local reqs Hne). apply IH.
Qed.

(** Witness: one pending request and the reviewer's answer in the first
    sleep. *)
Lemma wait_loop_all_polls_witness :
  ["uuid-1"] <> [] /\
  snd (wait_loop approve_first 3 0 ["uuid-1"] ∅ None bridge1) =
  List.fold_left (fun b k => apply_submits (approve_first k) b) (List.seq 0 3) bridge1.
Proof.
  split; [discriminate|].
  apply wait_loop_all_polls. discriminate.
Defined.

(** A failing agent stops the first pass: the extractor before any event
    (the progress event is added after its call), the compliance agent after
    the extraction events and its own [running] event (added before its
    call); the run state is returned as given. *)
Theorem agent_failure_stops_pass uuid4 ext comp json_loads json_dumps doc st :
  match ext (build_prompt_text doc) with
  | None => run_stream uuid4 ext comp json_loads json_dumps doc st =
              ([], Some (StepFailure "extractor"), st)
  | Some x =>
      match comp x with
      | None => run_stream uuid4 ext comp json_loads json_dumps doc st =
                  ([WProgress "extraction" "running"; WProgress "extraction" "completed";
                    WProgress "compliance" "running"], Some (StepFailure "compliance"), st)
      | Some _ => True
      end
  end.
Proof.
  unfold run_stream, max_iterations.
  destruct (ext (build_prompt_text doc)) as [x|] eqn:Hx.
  - destruct (comp x) as [y|] eqn:Hy; [exact I|].
    do 2 run_step. unfold extractor_node_fn. rewrite Hx. do 2 run_step.
    do 2 run_step. unfold compliance_node_fn. rewrite Hy. run_step. reflexivity.
  - do 2 run_step. unfold extractor_node_fn. rewrite Hx. run_step. reflexivity.
Qed.

End More.
